(** * EXAM-MASTER crawler: extraction and normalization of question records

    A shallow embedding of [src/crawler/parser.py] (the extractor,
    [QuestionParser.parse_question_from_html]) and of [src/crawler/crawler.py]
    (the normalizer, [QuestionCrawler.process_questions] and
    [QuestionCrawler.convert_judgment_to_choice]), with the properties the
    specification states about them.

    Python values are modelled as follows.
    - A [str] is the list of its Unicode code points ([pystr]); slicing,
      [strip], [replace] and [in] work on code points as in Python.
    - A [dict] used as a map is a [gmap]; insertion order is not observed by
      the code under study.
    - The parsed document produced by BeautifulSoup is a tree of [node]s;
      the extractor is modelled from the parsed document on.
    - [json.loads] belongs to the Python library: it is a parameter of the
      extractor ([json_loads]), which returns a value, raises
      [json.JSONDecodeError] or raises another exception ([json_result]).
      It may return any JSON value, not only an object.
    - [open] and the csv writer belong to the library too: a file is the
      list of the rows handed to the writer, [open] is a parameter of the
      file layer and the encoding of a row is decided on its text.
    - A raised exception is a value of the error type [result].
    - A question record is a value. The normalizer updates each dict in
      place, but every dict of a batch is built by one call of the extractor
      and visited once, so no update is seen through another reference. *)

From Stdlib Require Import NArith String Ascii.
From stdpp Require Import gmap list fin_maps.

Set Default Proof Using "Type".
#[local] Set Warnings "-register-all,-clear-no-such-hyp".

#[local] Open Scope N_scope.

(** ** Python strings *)

Abbreviation pystr := (list N).

Module PyStr.

(** *** Literals: UTF-8 source text to code points *)

Definition bytes_of (s : string) : list N :=
  map N_of_ascii (list_ascii_of_string s).

Definition cont (b : N) : N := N.land b 63.

Fixpoint utf8_decode (bs : list N) : pystr :=
  match bs with
  | [] => []
  | b :: rest =>
      if b <? 128 then b :: utf8_decode rest
      else if b <? 224 then
        match rest with
        | b1 :: rest1 =>
            N.lor (N.shiftl (N.land b 31) 6) (cont b1) :: utf8_decode rest1
        | _ => [65533]
        end
      else if b <? 240 then
        match rest with
        | b1 :: b2 :: rest2 =>
            N.lor (N.shiftl (N.land b 15) 12)
                  (N.lor (N.shiftl (cont b1) 6) (cont b2))
            :: utf8_decode rest2
        | _ => [65533]
        end
      else
        match rest with
        | b1 :: b2 :: b3 :: rest3 =>
            N.lor (N.shiftl (N.land b 7) 18)
                  (N.lor (N.shiftl (cont b1) 12)
                         (N.lor (N.shiftl (cont b2) 6) (cont b3)))
            :: utf8_decode rest3
        | _ => [65533]
        end
  end.

(** [py "abc"] is the Python string written "abc" in the source. *)
Definition py (s : string) : pystr := utf8_decode (bytes_of s).

(** *** Truthiness and equality *)

(** [bool(s)]: a string is true when it is not empty. *)
Definition truthy (s : pystr) : bool :=
  match s with [] => false | _ :: _ => true end.

Definition eqb (s t : pystr) : bool := bool_decide (s = t).

(** [s in [t1, ..., tn]] for a list of strings. *)
Definition in_list (s : pystr) (l : list pystr) : bool :=
  bool_decide (s ∈ l).

(** *** [str.strip], [str.rstrip] *)

(** [str.isspace] on one code point (CPython's [_PyUnicode_IsWhitespace]). *)
Definition is_space (c : N) : bool :=
  ((9 <=? c) && (c <=? 13)) || ((28 <=? c) && (c <=? 32))
  || (c =? 133) || (c =? 160) || (c =? 5760)
  || ((8192 <=? c) && (c <=? 8202))
  || (c =? 8232) || (c =? 8233) || (c =? 8239) || (c =? 8287)
  || (c =? 12288).

Fixpoint lstrip_by (p : N -> bool) (s : pystr) : pystr :=
  match s with
  | [] => []
  | c :: s' => if p c then lstrip_by p s' else s
  end.

(** Removes the trailing run of characters satisfying [p]. *)
Fixpoint rstrip_by (p : N -> bool) (s : pystr) : pystr :=
  match s with
  | [] => []
  | c :: s' =>
      match rstrip_by p s' with
      | [] => if p c then [] else [c]
      | r => c :: r
      end
  end.

(** [s.strip()] *)
Definition strip (s : pystr) : pystr := rstrip_by is_space (lstrip_by is_space s).

(** [s.rstrip(chars)] *)
Definition rstrip (chars : pystr) (s : pystr) : pystr :=
  rstrip_by (fun c => bool_decide (c ∈ chars)) s.

(** *** [sub in s] and [str.replace] *)

Fixpoint starts_with (p s : pystr) : bool :=
  match p, s with
  | [], _ => true
  | _ :: _, [] => false
  | a :: p', b :: s' => (a =? b) && starts_with p' s'
  end.

(** [sub in s]: [sub] occurs in [s] as a contiguous substring. *)
Fixpoint contains (sub s : pystr) : bool :=
  starts_with sub s ||
  match s with
  | [] => false
  | _ :: s' => contains sub s'
  end.

(** Scan for [s.replace(old, new)] with [old] not empty: occurrences are
    replaced left to right and do not overlap; [skip] counts the characters
    of the current occurrence still to be passed over. *)
Fixpoint replace_scan (old new : pystr) (skip : nat) (s : pystr) : pystr :=
  match s with
  | [] => []
  | c :: s' =>
      match skip with
      | S k => replace_scan old new k s'
      | O =>
          if starts_with old s
          then new ++ replace_scan old new (Nat.pred (length old)) s'
          else c :: replace_scan old new O s'
      end
  end.

(** [s.replace(old, new)]; with [old] empty Python puts [new] before every
    character and at the end. *)
Definition replace (old new : pystr) (s : pystr) : pystr :=
  match old with
  | [] => concat (map (fun c => new ++ [c]) s) ++ new
  | _ :: _ => replace_scan old new O s
  end.

End PyStr.

Import PyStr.

(** ** Python values and exceptions *)

(** The values [json.loads] can return. A number is kept as its literal: the
    code under study never inspects one. *)
Inductive pyval : Type :=
| PNone
| PBool (b : bool)
| PNum (literal : pystr)
| PStr (s : pystr)
| PList (l : list pyval)
| PDict (m : gmap (list N) pyval).

Inductive exn : Type :=
| TypeError
| ValueError
| RecursionError.

(** What [json.loads] does on a string: it returns the decoded value, it
    raises [json.JSONDecodeError], or it raises something else, which the
    [except json.JSONDecodeError] of the extractor does not catch:
    [ValueError] on an integer with more digits than the interpreter
    converts, [RecursionError] on containers nested too deep. *)
Inductive json_result : Type :=
| Decoded (v : pyval)
| JSONDecodeError
| DecodeRaised (e : exn).

Inductive result (A : Type) : Type :=
| Ok (a : A)
| Raise (e : exn).
Arguments Ok {A} a.
Arguments Raise {A} e.

#[global] Instance result_ret : MRet result := fun _ a => Ok a.

#[global] Instance result_bind : MBind result := fun _ _ k r =>
  match r with
  | Ok a => k a
  | Raise e => Raise e
  end.

(** [k in v] for a string [k]. On a dict it tests the keys, on a list the
    elements, on a string substrings; other values are not containers. *)
Definition py_contains (k : pystr) (v : pyval) : result bool :=
  match v with
  | PDict m => Ok (bool_decide (is_Some (m !! k)))
  | PList l =>
      Ok (existsb (fun x => match x with PStr s => eqb s k | _ => false end) l)
  | PStr s => Ok (contains k s)
  | PNone | PBool _ | PNum _ => Raise TypeError
  end.

(** [v[k] = x] for a string [k]: only a dict accepts it. *)
Definition py_setitem (v : pyval) (k : pystr) (x : pyval) : result pyval :=
  match v with
  | PDict m => Ok (PDict (<[k := x]> m))
  | _ => Raise TypeError
  end.

Definition is_dict (v : pyval) : Prop :=
  match v with PDict _ => True | _ => False end.

#[global] Instance is_dict_dec (v : pyval) : Decision (is_dict v).
Proof. destruct v; simpl; apply _. Defined.

(** ** The parsed document *)

(** What [BeautifulSoup(html_content, 'html.parser')] builds: text nodes and
    tags. A tag carries its name, the tokens of its [class] attribute, its
    other attributes and its children in document order. The document itself
    is a tag (named [[document]] by the library) whose children are the
    top-level nodes. *)
Inductive node : Type :=
| NavigableString (s : pystr)
| Tag (name : pystr) (classes : list pystr) (attrs : gmap (list N) (list N))
      (contents : list node).

Module Soup.

(** The nodes below [n], in document order ([Tag.descendants]). *)
Fixpoint descendants (n : node) : list node :=
  match n with
  | NavigableString _ => []
  | Tag _ _ _ contents => flat_map (fun c => c :: descendants c) contents
  end.

(** Does [n] match [find(name, class_=cls)]? A class given as one token
    matches a tag that has this token among its classes. *)
Definition matches (name : pystr) (cls : option pystr) (n : node) : bool :=
  match n with
  | NavigableString _ => false
  | Tag nm classes _ _ =>
      eqb nm name &&
      match cls with
      | None => true
      | Some c => in_list c classes
      end
  end.

(** [n.find_all(name, class_=cls)] *)
Definition find_all (name : pystr) (cls : option pystr) (n : node) : list node :=
  List.filter (matches name cls) (descendants n).

(** [n.find(name, class_=cls)]: the first match, or [None]. *)
Definition find (name : pystr) (cls : option pystr) (n : node) : option node :=
  head (find_all name cls n).

(** [n.get(key)] *)
Definition get (key : pystr) (n : node) : option pystr :=
  match n with
  | NavigableString _ => None
  | Tag _ _ attrs _ => attrs !! key
  end.

(** The text nodes at or below [n], in document order. *)
Fixpoint all_strings (n : node) : list pystr :=
  match n with
  | NavigableString s => [s]
  | Tag _ _ _ contents => flat_map all_strings contents
  end.

(** [n.get_text()] *)
Definition get_text (n : node) : pystr := concat (all_strings n).

(** [n.get_text(strip=True)]: every text node is stripped on its own, the
    empty ones are dropped, the rest is joined with no separator. *)
Definition get_text_strip (n : node) : pystr :=
  concat (List.filter truthy (map strip (all_strings n))).

End Soup.

Import Soup.

(** ** The question record *)

(** The dict built at the end of [parse_question_from_html]; the fields are
    its keys. *)
Record Question : Type := mkQuestion {
  type : pystr;
  question : pystr;
  options : pyval;
  source : pystr;
  correct_answer : pystr;
  knowledge_point : pystr
}.

(** ** Extractor: [QuestionParser.parse_question_from_html] *)

Definition DQUOTE : pystr := [34].

Section Extractor.

(** [json.loads] on a string. *)
Variable json_loads : pystr -> json_result.

(** [element.get_text(strip=True)] when the element was found, the empty
    string otherwise. *)
Definition text_or_empty (element : option node) : pystr :=
  match element with
  | Some e => get_text_strip e
  | None => []
  end.

(** [label] of an option item (parser.py, lines 48-49, 56-57, 64-65). *)
Definition item_label (item : node) : pystr :=
  match find (py "span") (Some (py "option-label")) item with
  | Some label_element => rstrip (py ":") (get_text_strip label_element)
  | None => []
  end.

(** [text] of an option item (parser.py, lines 50, 58, 66). *)
Definition item_text (item : node) : pystr :=
  if truthy (get_text item) then drop 3 (get_text_strip item) else [].

(** The loop of lines 47-51 and 55-59, run on the dict [options_data]:
    [options_data[label] = text] for every item in turn. *)
Definition items_into (options_data : gmap (list N) pyval) (option_items : list node)
  : gmap (list N) pyval :=
  foldl (fun od item => <[item_label item := PStr (item_text item)]> od)
        options_data option_items.

(** The loop of lines 63-68: an item is added when its label is not empty
    and not in [options_data]. *)
Fixpoint add_missing (option_items : list node) (options_data : pyval)
  : result pyval :=
  match option_items with
  | [] => Ok options_data
  | item :: rest =>
      let label := item_label item in
      let text := item_text item in
      if truthy label then
        present ← py_contains label options_data;
        if present : bool then add_missing rest options_data
        else
          options_data' ← py_setitem options_data label (PStr text);
          add_missing rest options_data'
      else add_missing rest options_data
  end.

(** Lines 38-68, for an options container that was found. Only
    [json.JSONDecodeError] is caught (line 44): any other exception of
    [json.loads] leaves the extractor. *)
Definition parse_options (options_container : node) : result pyval :=
  let option_items :=
    find_all (py "div") (Some (py "option-item")) options_container in
  let from_items := PDict (items_into ∅ option_items) in
  options_data ←
    match get (py "data-options") options_container with
    | Some data_options =>
        if truthy data_options then
          let cleaned_data_options := replace (py "&quot;") DQUOTE data_options in
          match json_loads cleaned_data_options with
          | Decoded decoded => Ok decoded
          | JSONDecodeError => Ok from_items
          | DecodeRaised e => Raise e
          end
        else Ok from_items
    | None => Ok from_items
    end;
  add_missing option_items options_data.

Definition parse_question_from_html (soup : node) : result (option Question) :=
  match find (py "div") (Some (py "question-card")) soup with
  | None => Ok None
  | Some question_card =>
      let question_type :=
        text_or_empty (find (py "span") (Some (py "question-type")) question_card) in
      let question_text :=
        text_or_empty (find (py "div") (Some (py "question-text")) question_card) in
      options_data ←
        match find (py "div") (Some (py "optionsContainer")) question_card with
        | Some options_container => parse_options options_container
        | None => Ok (PDict ∅)
        end;
      let question_meta := find (py "div") (Some (py "question-meta")) question_card in
      let source_element :=
        match question_meta with
        | Some m => find (py "span") None m
        | None => None
        end in
      let source := text_or_empty source_element in
      let correct_answer_div :=
        find (py "div") (Some (py "correct-answer")) question_card in
      let correct_answer_element :=
        match correct_answer_div with
        | Some d => find (py "span") None d
        | None => None
        end in
      let correct_answer := text_or_empty correct_answer_element in
      let knowledge_point :=
        text_or_empty
          (find (py "span") (Some (py "current-knowledge-point")) question_card) in
      Ok (Some (mkQuestion question_type question_text options_data
                           source correct_answer knowledge_point))
  end.

End Extractor.

(** ** Normalizer: [QuestionCrawler.process_questions] *)

Definition JUDGMENT : pystr := Eval cbv in py "判断题".
Definition MULTI_SELECT : pystr := Eval cbv in py "多选题".

Definition TRUE_TEXT : pystr := Eval cbv in py "正确".
Definition FALSE_TEXT : pystr := Eval cbv in py "错误".

(** The two lists of [convert_judgment_to_choice] (crawler.py, lines 167
    and 169). *)
Definition TRUE_ANSWERS : list pystr :=
  Eval cbv in
    [py "正确"; py "是"; py "对"; py "1"; py "True"; py "Y"; py "T"; py "A"].
Definition FALSE_ANSWERS : list pystr :=
  Eval cbv in
    [py "错误"; py "否"; py "不对"; py "0"; py "False"; py "N"; py "F"; py "B"].

Definition LABEL_A : pystr := Eval cbv in py "A".
Definition LABEL_B : pystr := Eval cbv in py "B".

Definition set_correct_answer (q : Question) (a : pystr) : Question :=
  mkQuestion (type q) (question q) (options q) (source q) a (knowledge_point q).

Definition set_options (q : Question) (o : pyval) : Question :=
  mkQuestion (type q) (question q) o (source q) (correct_answer q) (knowledge_point q).

(** crawler.py, lines 152-176. *)
Definition convert_judgment_to_choice (q : Question) : result Question :=
  let original_answer := strip (correct_answer q) in
  options1 ← py_setitem (options q) LABEL_A (PStr TRUE_TEXT);
  options2 ← py_setitem options1 LABEL_B (PStr FALSE_TEXT);
  let q' :=
    if in_list original_answer TRUE_ANSWERS || contains LABEL_A original_answer
    then set_correct_answer q LABEL_A
    else if in_list original_answer FALSE_ANSWERS || contains LABEL_B original_answer
    then set_correct_answer q LABEL_B
    else set_correct_answer q (correct_answer q) in
  Ok (set_options q' options2).

(** The chain of [replace] calls of line 142. *)
Definition strip_answer_punctuation (a : pystr) : pystr :=
  replace (py ",") []
    (replace (py "'") []
      (replace DQUOTE []
        (replace (py " ") []
          (replace (py "]") []
            (replace (py "[") [] a))))).

(** The two rewriting steps of the loop body (lines 137-142), for one
    record. *)
Definition normalize_record (q : Question) : result Question :=
  q1 ← (if eqb (type q) JUDGMENT then convert_judgment_to_choice q else Ok q);
  Ok (if eqb (type q1) MULTI_SELECT
      then set_correct_answer q1 (strip_answer_punctuation (correct_answer q1))
      else q1).

(** The test of line 145: the answer is empty once stripped. *)
Definition answer_is_empty (q : Question) : bool :=
  negb (truthy (strip (correct_answer q))).

(** The loop of lines 135-148 with its two accumulators. *)
Fixpoint process_loop (questions : list Question)
    (processed_questions empty_answer_questions : list Question)
  : result (list Question * list Question) :=
  match questions with
  | [] => Ok (processed_questions, empty_answer_questions)
  | q :: rest =>
      q' ← normalize_record q;
      if answer_is_empty q'
      then process_loop rest processed_questions (empty_answer_questions ++ [q'])
      else process_loop rest (processed_questions ++ [q']) empty_answer_questions
  end.

Definition process_questions (questions : list Question)
  : result (list Question * list Question) :=
  process_loop questions [] [].

(** ** Configuration: [config.py] *)

Module Config.

Definition base_url : pystr := Eval cbv in py "http://8.130.71.136:188".

Definition student_questions_endpoint : pystr :=
  Eval cbv in py "/student/software-questions".

Definition max_pages : Z := 70.

End Config.

(** ** Exceptions and effects of the crawlers *)

(** The exceptions the crawlers meet: those of the extractor and of the
    normalizer, the [AttributeError] of a method call on a value that has no
    such method, whatever [session.get] raises, the [OSError] of an [open]
    that fails and the [UnicodeEncodeError] of a text the file cannot
    encode. *)
Inductive py_exception : Type :=
| Builtin (e : exn)
| AttributeError
| RequestError
| OSError
| UnicodeEncodeError.

Inductive outcome (A : Type) : Type :=
| Returned (a : A)
| Raised (e : py_exception).
Arguments Returned {A} a.
Arguments Raised {A} e.

#[global] Instance outcome_ret : MRet outcome := fun _ a => Returned a.

#[global] Instance outcome_bind : MBind outcome := fun _ _ k r =>
  match r with
  | Returned a => k a
  | Raised e => Raised e
  end.

Definition lift {A : Type} (r : result A) : outcome A :=
  match r with
  | Ok a => Returned a
  | Raise e => Raised (Builtin e)
  end.

(** A value of the [params] dict of a request. *)
Inductive param : Type :=
| ParamInt (i : Z)
| ParamStr (s : pystr)
| ParamList (l : list pystr).

(** What [session.get] does: it raises, or it returns a response with its
    [status_code] and [text]. *)
Inductive http_result : Type :=
| HttpRaised
| HttpResponse (status_code : Z) (text : pystr).

(** The dict [page_data] of crawler.py (lines 82-87); the fields are its
    keys. *)
Record page_data : Type := mkPageData {
  pd_page : Z;
  pd_size : Z;
  pd_question_types : list pystr;
  pd_course : pystr
}.

(** A cell of a CSV row: the row number or a value taken from a record. *)
Inductive cell : Type :=
| CellInt (i : Z)
| CellValue (v : pyval).

(** What a file holds once it is closed: the rows handed to
    [csv.DictWriter.writerow] after the header, or the list handed to
    [json.dump]. The bytes are the library's. *)
Inductive file_content : Type :=
| CsvFile (rows : list (gmap (list N) cell))
| JsonFile (questions : list Question).

(** ** Page driver: [QuestionParser.parse_questions_from_page] *)

Section PageDriver.

Variable json_loads : pystr -> json_result.

(** [BeautifulSoup(html_content, 'html.parser')] and [str(card)]: the HTML
    parser and the serializer of the library. *)
Variable BeautifulSoup : pystr -> node.
Variable str_node : node -> pystr.

(** [parse_question_from_html] applied to HTML text (parser.py, line 18 on). *)
Definition parse_question_from_html_content (html_content : pystr)
  : result (option Question) :=
  parse_question_from_html json_loads (BeautifulSoup html_content).

(** The loop of lines 106-110: a card for which the extractor returns
    [None] is skipped. *)
Fixpoint parse_cards (question_cards : list node) (questions : list Question)
  : result (list Question) :=
  match question_cards with
  | [] => Ok questions
  | card :: rest =>
      let question_html := str_node card in
      question_info ← parse_question_from_html_content question_html;
      match question_info : option Question with
      | Some q => parse_cards rest (questions ++ [q])
      | None => parse_cards rest questions
      end
  end.

(** parser.py, lines 96-112. *)
Definition parse_questions_from_page (html_content : pystr) : result (list Question) :=
  let soup := BeautifulSoup html_content in
  let question_cards := find_all (py "div") (Some (py "question-card")) soup in
  parse_cards question_cards [].

End PageDriver.

(** ** Crawlers: [QuestionCrawler] of crawler.py and of parser.py *)

(** The requests go through the parameter [session_get]; the files are a map
    from names to what was written. The messages printed on the console are
    left out, and creating or closing a session is taken to succeed. The
    thread pool of crawler.py is represented by the order in which its
    requests finish: each request has its own session and shares nothing
    with the others. *)

(** [s.strip(chars)] *)
Definition strip_chars (chars : pystr) (s : pystr) : pystr :=
  rstrip_by (fun c => bool_decide (c ∈ chars))
            (lstrip_by (fun c => bool_decide (c ∈ chars)) s).

Definition SINGLE_CHOICE : pystr := Eval cbv in py "单选题".
Definition FILL_BLANK : pystr := Eval cbv in py "填空题".
Definition COURSE : pystr := Eval cbv in py "软件工程".

(** [params.setdefault('questionTypes', []).append(q_type)] (crawler.py,
    line 50; parser.py, line 149): [append] exists on a list only. *)
Definition add_question_type (params : gmap (list N) param) (q_type : pystr)
  : outcome (gmap (list N) param) :=
  match params !! py "questionTypes" with
  | None => Returned (<[py "questionTypes" := ParamList [q_type]]> params)
  | Some (ParamList l) =>
      Returned (<[py "questionTypes" := ParamList (l ++ [q_type])]> params)
  | Some (ParamInt _) | Some (ParamStr _) => Raised AttributeError
  end.

Fixpoint add_question_types (question_types : list pystr)
    (params : gmap (list N) param) : outcome (gmap (list N) param) :=
  match question_types with
  | [] => Returned params
  | q_type :: rest =>
      params' ← add_question_type params q_type;
      add_question_types rest params'
  end.

(** The dict [params] of a request (crawler.py, lines 42-50; parser.py,
    lines 141-149). *)
Definition request_params (page size : Z) (course : pystr)
    (question_types : list pystr) : outcome (gmap (list N) param) :=
  add_question_types question_types
    (<[py "course" := ParamStr course]>
       (<[py "size" := ParamInt size]> (<[py "page" := ParamInt page]> ∅))).

(** One cell of the columns A to E: [q.get("options", {}).get(label, "")]
    with the empty string as default; [get] exists on a dict only. *)
Definition option_cell (q : Question) (label : pystr) : outcome cell :=
  match options q with
  | PDict m => Returned (CellValue (default (PStr []) (m !! label)))
  | _ => Raised AttributeError
  end.

(** The dict [row] of crawler.py, lines 190-201, for the record [q]
    numbered [i]. *)
Definition make_row (i : Z) (q : Question) : outcome (gmap (list N) cell) :=
  a ← option_cell q (py "A");
  b ← option_cell q (py "B");
  c ← option_cell q (py "C");
  d ← option_cell q (py "D");
  e ← option_cell q (py "E");
  Returned
    (<[py "题型" := CellValue (PStr (type q))]>
    (<[py "难度" := CellValue (PStr (knowledge_point q))]>
    (<[py "答案" := CellValue (PStr (strip_chars DQUOTE (correct_answer q)))]>
    (<[py "E" := e]> (<[py "D" := d]> (<[py "C" := c]> (<[py "B" := b]>
    (<[py "A" := a]>
    (<[py "题干" := CellValue (PStr (question q))]>
    (<[py "题号" := CellInt i]> ∅)))))))))).

(** The loop of lines 189-202: the rows written so far stay in the file
    when a row raises. Here the writer accepts every row; [write_rows_io]
    below adds the rows it refuses. *)
Fixpoint write_rows (i : Z) (questions : list Question)
    (written : list (gmap (list N) cell))
  : list (gmap (list N) cell) * option py_exception :=
  match questions with
  | [] => (written, None)
  | q :: rest =>
      match make_row i q with
      | Returned row => write_rows (i + 1)%Z rest (written ++ [row])
      | Raised e => (written, Some e)
      end
  end.

(** crawler.py, lines 178-202: the file is opened for writing, so what it
    held before is lost. This is what the code hands to [open] and to the
    writer, both taken to succeed; [save_questions_to_csv_io] below adds
    their failures. *)
Definition save_questions_to_csv (questions : list Question) (output_file : pystr)
    (fs : gmap (list N) file_content)
  : gmap (list N) file_content * option py_exception :=
  let '(rows, raised) := write_rows 1%Z questions [] in
  (<[output_file := CsvFile rows]> fs, raised).

(** The name of the file of the records without an answer (line 120). *)
Definition empty_answers_file (output_file : pystr) : pystr :=
  replace (py ".csv") (py "_empty_answers.csv") output_file.

(** *** The file layer *)

(** Can the text be encoded as utf-8-sig? Every code point can, except the
    surrogates U+D800 to U+DFFF, which [json.loads] returns when the text
    escapes one on its own. *)
Definition encodable (s : pystr) : bool :=
  forallb (fun c => negb ((55296 <=? c) && (c <=? 57343))) s.

(** The writer turns a cell into text with [str], except that [None] is
    written as the empty string: a string is written as it is, a number as
    its digits, a list or a dict with its strings escaped by [repr]. So
    only a cell that is a string can hold a surrogate. *)
Definition cell_encodable (c : cell) : bool :=
  match c with
  | CellValue (PStr s) => encodable s
  | _ => true
  end.

(** The list [fieldnames] of line 180. *)
Definition FIELDNAMES : list pystr :=
  Eval cbv in
    [py "题号"; py "题干"; py "A"; py "B"; py "C"; py "D"; py "E";
     py "答案"; py "难度"; py "题型"].

(** The line of a row is made of [row.get(key, "")] for the keys of
    [fieldnames], in their order. *)
Definition row_encodable (row : gmap (list N) cell) : bool :=
  forallb (fun key => cell_encodable (default (CellValue (PStr [])) (row !! key)))
          FIELDNAMES.

(** The loop of lines 189-202 with the write of line 202: [writerow] hands
    the line to the file, which encodes it at once and raises
    [UnicodeEncodeError] when it cannot; the lines handed over before stay
    in the file. *)
Fixpoint write_rows_io (i : Z) (questions : list Question)
    (written : list (gmap (list N) cell))
  : list (gmap (list N) cell) * option py_exception :=
  match questions with
  | [] => (written, None)
  | q :: rest =>
      match make_row i q with
      | Returned row =>
          if row_encodable row
          then write_rows_io (i + 1)%Z rest (written ++ [row])
          else (written, Some UnicodeEncodeError)
      | Raised e => (written, Some e)
      end
  end.

Section FileLayer.

(** What [open(output_file, 'w', newline='', encoding='utf-8-sig')] raises,
    if anything: an empty name, a name in a directory that does not exist,
    the name of a directory or a file that may not be written make it raise
    an [OSError], and nothing is written. The device is taken to accept the
    bytes of a file that was opened. *)
Variable open_error : pystr -> option py_exception.

(** crawler.py, lines 178-202, with the failures of [open] and of the
    write. *)
Definition save_questions_to_csv_io (questions : list Question)
    (output_file : pystr) (fs : gmap (list N) file_content)
  : gmap (list N) file_content * option py_exception :=
  match open_error output_file with
  | Some e => (fs, Some e)
  | None =>
      let '(rows, raised) := write_rows_io 1%Z questions [] in
      (<[output_file := CsvFile rows]> fs, raised)
  end.

End FileLayer.

Section Crawlers.

Variable json_loads : pystr -> json_result.
Variable BeautifulSoup : pystr -> node.
Variable str_node : node -> pystr.

(** [session.get(url, params=params)] *)
Variable session_get : pystr -> gmap (list N) param -> http_result.

(** The request and the parsing of its response, shared by the two
    [get_questions] (crawler.py, lines 41-57; parser.py, lines 140-160): a
    status other than 200 gives no question. *)
Definition request_questions (page size : Z) (course : pystr)
    (question_types : list pystr) : outcome (list Question) :=
  let url := Config.base_url ++ Config.student_questions_endpoint in
  params ← request_params page size course question_types;
  match session_get url params with
  | HttpRaised => Raised RequestError
  | HttpResponse status_code text =>
      if (status_code =? 200)%Z
      then lift (parse_questions_from_page json_loads BeautifulSoup str_node text)
      else Returned []
  end.

(** crawler.py, lines 26-67: every exception of the [try] block is caught
    and gives an empty list. *)
Definition get_questions (pd : page_data) : list Question * Z :=
  match request_questions (pd_page pd) (pd_size pd) (pd_course pd)
                          (pd_question_types pd) with
  | Returned questions => (questions, pd_page pd)
  | Raised _ => ([], pd_page pd)
  end.

(** The list [page_data_list] of crawler.py, lines 80-88. *)
Definition page_data_list : list page_data :=
  (fun page => mkPageData page 15%Z [SINGLE_CHOICE; JUDGMENT; MULTI_SELECT] COURSE)
    <$> seqZ 1 Config.max_pages.

(** The loop of lines 99-108 over the finished requests, taken in the order
    in which they finish. *)
Definition collect (completion_order : list page_data) : list Question :=
  foldl (fun all_questions pd =>
           let '(questions, page_num) := get_questions pd in
           if bool_decide (questions ≠ [])
           then all_questions ++ questions
           else all_questions)
        [] completion_order.

(** crawler.py, lines 69-124, for the requests finishing in the order
    [completion_order]: the records collected, normalized and handed to
    [save_questions_to_csv]. [crawl_and_save_questions_io] below adds the
    failures of the thread pool and of the file layer. *)
Definition crawl_and_save_questions (completion_order : list page_data)
    (output_file : pystr) (fs : gmap (list N) file_content)
  : gmap (list N) file_content * option py_exception :=
  let all_questions := collect completion_order in
  match process_questions all_questions with
  | Raise e => (fs, Some (Builtin e))
  | Ok (processed_questions, empty_answer_questions) =>
      let '(fs1, raised) :=
        save_questions_to_csv processed_questions output_file fs in
      match raised with
      | Some e => (fs1, Some e)
      | None =>
          match empty_answer_questions with
          | [] => (fs1, None)
          | _ :: _ =>
              save_questions_to_csv empty_answer_questions
                (empty_answers_file output_file) fs1
          end
      end
  end.

(** [open] on the files of a run, as in [save_questions_to_csv_io]. *)
Variable open_error : pystr -> option py_exception.

(** crawler.py, lines 69-124, with the failures of the thread pool and of
    the file layer: [ThreadPoolExecutor(max_workers=0)] raises [ValueError]
    (line 93), which is the case when there is no page to request. *)
Definition crawl_and_save_questions_io (completion_order : list page_data)
    (output_file : pystr) (fs : gmap (list N) file_content)
  : gmap (list N) file_content * option py_exception :=
  match completion_order with
  | [] => (fs, Some (Builtin ValueError))
  | _ :: _ =>
      let all_questions := collect completion_order in
      match process_questions all_questions with
      | Raise e => (fs, Some (Builtin e))
      | Ok (processed_questions, empty_answer_questions) =>
          let '(fs1, raised) :=
            save_questions_to_csv_io open_error processed_questions output_file fs in
          match raised with
          | Some e => (fs1, Some e)
          | None =>
              match empty_answer_questions with
              | [] => (fs1, None)
              | _ :: _ =>
                  save_questions_to_csv_io open_error empty_answer_questions
                    (empty_answers_file output_file) fs1
              end
          end
      end
  end.

(** parser.py, lines 127-160: no exception is caught. *)
Definition parser_get_questions (page size : Z)
    (question_types : option (list pystr)) (course : pystr)
  : outcome (list Question) :=
  let question_types :=
    match question_types with
    | None => [SINGLE_CHOICE; JUDGMENT; FILL_BLANK; MULTI_SELECT]
    | Some l => l
    end in
  request_questions page size course question_types.

(** The loop of parser.py, lines 170-178, with the pages requested so far. *)
Fixpoint parser_crawl_pages (pages : list Z) (all_questions : list Question)
    (requested : list Z) : outcome (list Question) * list Z :=
  match pages with
  | [] => (Returned all_questions, requested)
  | page :: rest =>
      match parser_get_questions page 15%Z None COURSE with
      | Raised e => (Raised e, requested ++ [page])
      | Returned questions =>
          if bool_decide (questions = [])
          then (Returned all_questions, requested ++ [page])
          else parser_crawl_pages rest (all_questions ++ questions)
                                  (requested ++ [page])
      end
  end.

(** parser.py, lines 162-184: the file, the exception if one was raised and
    the pages that were requested. *)
Definition parser_crawl_and_save_questions (output_file : pystr) (max_pages : Z)
    (fs : gmap (list N) file_content)
  : gmap (list N) file_content * option py_exception * list Z :=
  match parser_crawl_pages (seqZ 1 max_pages) [] [] with
  | (Returned all_questions, requested) =>
      (<[output_file := JsonFile all_questions]> fs, None, requested)
  | (Raised e, requested) => (fs, Some e, requested)
  end.

End Crawlers.

(** * Vocabulary of the statements *)

(** ** Normalizer *)

Definition LABEL_C : pystr := Eval cbv in py "C".

(** The characters removed by line 142: the two square brackets, space,
    double quote, single quote and comma. *)
Definition ANSWER_PUNCTUATION : list N := [91; 93; 32; 34; 39; 44].

(** The answer chosen by the [if]/[elif]/[else] of lines 167-172. *)
Definition remapped_answer (a : pystr) : pystr :=
  let original_answer := strip a in
  if in_list original_answer TRUE_ANSWERS || contains LABEL_A original_answer
  then LABEL_A
  else if in_list original_answer FALSE_ANSWERS || contains LABEL_B original_answer
  then LABEL_B
  else a.

(** The options after lines 163-164. *)
Definition judgment_options (m : gmap (list N) pyval) : gmap (list N) pyval :=
  <[LABEL_B := PStr FALSE_TEXT]> (<[LABEL_A := PStr TRUE_TEXT]> m).

(** A record the normalizer can process: a judgment record carries a dict
    as its options (the data model's mapping). *)
Definition convertible (q : Question) : Prop :=
  type q = JUDGMENT → is_dict (options q).

(** The trimmed answers the conversion recognizes (lines 167 and 169). *)
Definition recognized (t : pystr) : Prop :=
  t ∈ TRUE_ANSWERS ∨ contains LABEL_A t = true
  ∨ t ∈ FALSE_ANSWERS ∨ contains LABEL_B t = true.

(** The invariant as the claim C3 words it, on a normalized record:
    exactly the two options A and B, with the fixed texts, and an answer
    that is A or B as soon as it is not empty. *)
Definition judgment_invariant (q' : Question) : Prop :=
  ∃ m', options q' = PDict m'
    ∧ dom m' = {[LABEL_A; LABEL_B]}
    ∧ m' !! LABEL_A = Some (PStr TRUE_TEXT)
    ∧ m' !! LABEL_B = Some (PStr FALSE_TEXT)
    ∧ (correct_answer q' ≠ [] → correct_answer q' = LABEL_A ∨ correct_answer q' = LABEL_B).

(** A record is answered when its answer is not empty after trimming. *)
Definition answered (q : Question) : Prop := strip (correct_answer q) ≠ [].

#[global] Instance answered_dec (q : Question) : Decision (answered q).
Proof. unfold answered. apply _. Defined.

(** [normalized qs qs']: [qs'] lists the normalized records of [qs], in the
    order of [qs]. *)
Definition normalized (qs qs' : list Question) : Prop :=
  Forall2 (fun q q' => normalize_record q = Ok q') qs qs'.

(** ** Extractor *)

(** The question card of a document and the options container of a card
    (lines 21 and 35). *)
Definition question_card_of (soup : node) : option node :=
  find (py "div") (Some (py "question-card")) soup.

Definition options_container_of (question_card : node) : option node :=
  find (py "div") (Some (py "optionsContainer")) question_card.

(** The option items of a container, in document order. *)
Definition option_items (options_container : node) : list node :=
  find_all (py "div") (Some (py "option-item")) options_container.

(** The first item of [items] whose label is [k]. *)
Definition first_labelled (k : pystr) (items : list node) : option node :=
  head (filter (fun item => item_label item = k) items).

(** What the loop of lines 63-68 does to a dict. *)
Definition merge_missing (m : gmap (list N) pyval) (items : list node)
  : gmap (list N) pyval :=
  foldl (fun od item =>
           if truthy (item_label item) && negb (bool_decide (is_Some (od !! item_label item)))
           then <[item_label item := PStr (item_text item)]> od
           else od)
        m items.

(** The container with its [data-options] attribute taken away. *)
Definition without_data_options (options_container : node) : node :=
  match options_container with
  | NavigableString s => NavigableString s
  | Tag name classes attrs contents =>
      Tag name classes (delete (py "data-options") attrs) contents
  end.

(** ** Page driver, crawlers and saved files *)

(** The question cards of a page, in document order. *)
Definition question_cards_of (soup : node) : list node :=
  find_all (py "div") (Some (py "question-card")) soup.

(** The rows [save_questions_to_csv] writes for [questions], up to the first
    record that raises. *)
Definition rows_of (questions : list Question) : list (gmap (list N) cell) :=
  (write_rows 1%Z questions []).1.

(** The rows that reach the file: those before the first one the file
    cannot encode. *)
Fixpoint rows_before_unencodable (rows : list (gmap (list N) cell))
  : list (gmap (list N) cell) :=
  match rows with
  | [] => []
  | row :: rest =>
      if row_encodable row then row :: rows_before_unencodable rest else []
  end.

(** The option labels that have a column in the file. *)
Definition COLUMN_LABELS : list pystr :=
  Eval cbv in [py "A"; py "B"; py "C"; py "D"; py "E"].

(** The text of a string cell. *)
Definition text_cell (s : pystr) : cell := CellValue (PStr s).

(** The normalized form of a record the normalizer can process. *)
Definition normalized_or_same (q : Question) : Question :=
  match normalize_record q with
  | Ok q' => q'
  | Raise _ => q
  end.

#[global] Instance convertible_dec (q : Question) : Decision (convertible q).
Proof. unfold convertible. apply _. Defined.

(** The keys of the dict [params]. *)
Definition PARAM_KEYS : list pystr :=
  Eval cbv in [py "page"; py "size"; py "course"; py "questionTypes"].

(** A row with the given cells, in the order of [fieldnames] (crawler.py,
    line 185). *)
Definition build_row (number stem a b c d e answer difficulty kind : cell)
  : gmap (list N) cell :=
  <[py "题型" := kind]>
  (<[py "难度" := difficulty]>
  (<[py "答案" := answer]>
  (<[py "E" := e]> (<[py "D" := d]> (<[py "C" := c]> (<[py "B" := b]>
  (<[py "A" := a]>
  (<[py "题干" := stem]>
  (<[py "题号" := number]> ∅))))))))).

(** The cell of an option column for the options [m]. *)
Definition option_column (m : gmap (list N) pyval) (label : pystr) : cell :=
  CellValue (default (PStr []) (m !! label)).

(** The row of a record whose options are the dict [m]. *)
Definition row_of (i : Z) (q : Question) (m : gmap (list N) pyval)
  : gmap (list N) cell :=
  build_row (CellInt i) (text_cell (question q))
            (option_column m (py "A")) (option_column m (py "B"))
            (option_column m (py "C")) (option_column m (py "D"))
            (option_column m (py "E"))
            (text_cell (strip_chars DQUOTE (correct_answer q)))
            (text_cell (knowledge_point q)) (text_cell (type q)).

(** A record whose options are a dict. *)
Definition has_mapping (q : Question) : Prop := is_dict (options q).

#[global] Instance has_mapping_dec (q : Question) : Decision (has_mapping q).
Proof. unfold has_mapping. apply _. Defined.

(** The dict [params] of a request, as [request_params] builds it. *)
Definition params_of (page size : Z) (course : pystr) (question_types : list pystr)
  : gmap (list N) param :=
  let base :=
    <[py "course" := ParamStr course]>
      (<[py "size" := ParamInt size]> (<[py "page" := ParamInt page]> ∅)) in
  match question_types with
  | [] => base
  | _ :: _ => <[py "questionTypes" := ParamList question_types]> base
  end.

(** The address every request goes to. *)
Definition REQUEST_URL : pystr :=
  Config.base_url ++ Config.student_questions_endpoint.

(** The parameters of the request for a page. *)
Definition page_params (pd : page_data) : gmap (list N) param :=
  params_of (pd_page pd) (pd_size pd) (pd_course pd) (pd_question_types pd).


(** The two lists [process_questions] returns for a batch it can process. *)
Definition answered_records (qs : list Question) : list Question :=
  filter answered (normalized_or_same <$> qs).

Definition unanswered_records (qs : list Question) : list Question :=
  filter (fun q => ¬ answered q) (normalized_or_same <$> qs).

(** An option item as the page of the example of parser.py renders it
    (lines 201-212): white space, the label element holding the label and a
    colon, then the text in the text node that follows. *)
Definition page_item (pre lab txt : pystr) : node :=
  Tag (py "div") [py "option-item"] ∅
      [NavigableString pre;
       Tag (py "span") [py "option-label"] ∅ [NavigableString lab];
       NavigableString txt].

(** * Sample inputs *)

(** ** A decoder for flat JSON texts *)

(** [Json.loads] decodes the JSON texts made of one scalar, one array of
    scalars or one object of scalars, where a scalar is a string without
    escapes, an integer of at most 4300 digits, [true], [false] or [null];
    on these it returns what Python's [json.loads] returns, and
    [JSONDecodeError] where [json.loads] raises it. A text that starts with
    an integer of more than 4300 digits gives [ValueError], whatever
    follows the digits other than a fraction or an exponent: the scanner of
    the library converts the number before it looks further, and CPython
    3.11 refuses to convert more digits than
    [sys.get_int_max_str_digits()], 4300 unless configured otherwise.
    Every other text outside the fragment (nested containers, escapes,
    fractions, exponents, the literals NaN and Infinity) is answered with
    [JSONDecodeError]: the decoder only instantiates the parameter
    [json_loads] in the examples below. *)
Module Json.

Inductive token : Type :=
| TLBrace | TRBrace | TLBracket | TRBracket | TColon | TComma
| TString (s : pystr)
| TLiteral (s : pystr).

Inductive mode : Type :=
| Outside
| InString (acc : pystr)
| InLiteral (acc : pystr).

Definition is_ws (c : N) : bool :=
  (c =? 32) || (c =? 9) || (c =? 10) || (c =? 13).

Definition is_literal_char (c : N) : bool :=
  ((48 <=? c) && (c <=? 57)) || ((97 <=? c) && (c <=? 122)) || (c =? 45).

(** One character read outside strings and literals. *)
Definition outside_step (c : N) : option (mode * list token) :=
  if is_ws c then Some (Outside, [])
  else if c =? 123 then Some (Outside, [TLBrace])
  else if c =? 125 then Some (Outside, [TRBrace])
  else if c =? 91 then Some (Outside, [TLBracket])
  else if c =? 93 then Some (Outside, [TRBracket])
  else if c =? 58 then Some (Outside, [TColon])
  else if c =? 44 then Some (Outside, [TComma])
  else if c =? 34 then Some (InString [], [])
  else if is_literal_char c then Some (InLiteral [c], [])
  else None.

Fixpoint lex (md : mode) (s : pystr) : option (list token) :=
  match s with
  | [] =>
      match md with
      | Outside => Some []
      | InString _ => None
      | InLiteral acc => Some [TLiteral (rev acc)]
      end
  | c :: s' =>
      match md with
      | Outside =>
          match outside_step c with
          | Some (md', toks) => (fun r => toks ++ r) <$> lex md' s'
          | None => None
          end
      | InString acc =>
          if c =? 34 then (fun r => TString (rev acc) :: r) <$> lex Outside s'
          else if (c =? 92) || (c <? 32) then None
          else lex (InString (c :: acc)) s'
      | InLiteral acc =>
          if is_literal_char c then lex (InLiteral (c :: acc)) s'
          else
            match outside_step c with
            | Some (md', toks) =>
                (fun r => TLiteral (rev acc) :: toks ++ r) <$> lex md' s'
            | None => None
            end
      end
  end.

Definition is_digit (c : N) : bool := (48 <=? c) && (c <=? 57).

(** An integer in JSON: an optional minus sign, then 0 or digits that do not
    start with 0. *)
Definition is_integer (s : pystr) : bool :=
  let digits := match s with 45 :: d => d | _ => s end in
  match digits with
  | [] => false
  | [48] => true
  | 48 :: _ => false
  | _ => forallb is_digit digits
  end.

(** [sys.get_int_max_str_digits()] by default. *)
Definition MAX_STR_DIGITS : nat := 4300.

(** The digits at the head of [s] and what follows them. *)
Fixpoint span_digits (s : pystr) : pystr * pystr :=
  match s with
  | c :: s' =>
      if is_digit c then let '(digits, rest) := span_digits s' in (c :: digits, rest)
      else ([], s)
  | [] => ([], [])
  end.

(** Does a fraction or an exponent start here? Then the number is read as
    a float. *)
Definition is_float_tail (s : pystr) : bool :=
  match s with
  | 46 :: d :: _ => is_digit d
  | 101 :: 43 :: d :: _ | 101 :: 45 :: d :: _
  | 69 :: 43 :: d :: _ | 69 :: 45 :: d :: _ => is_digit d
  | 101 :: d :: _ | 69 :: d :: _ => is_digit d
  | _ => false
  end.

(** Does [s] start with an integer that has too many digits to convert? *)
Definition starts_with_long_integer (s : pystr) : bool :=
  let unsigned := match s with 45 :: d => d | _ => s end in
  match unsigned with
  | 48 :: _ => false
  | _ =>
      let '(digits, rest) := span_digits unsigned in
      bool_decide (MAX_STR_DIGITS < length digits)%nat && negb (is_float_tail rest)
  end.

Definition scalar (t : token) : option pyval :=
  match t with
  | TString s => Some (PStr s)
  | TLiteral l =>
      if eqb l (py "true") then Some (PBool true)
      else if eqb l (py "false") then Some (PBool false)
      else if eqb l (py "null") then Some PNone
      else if is_integer l && bool_decide (length l <= MAX_STR_DIGITS)%nat
      then Some (PNum l)
      else None
  | _ => None
  end.

(** The members of an object after its first brace; a later member with the
    same key replaces the earlier one, as in a Python dict. *)
Fixpoint members (acc : gmap (list N) pyval) (toks : list token)
  : option (gmap (list N) pyval) :=
  match toks with
  | TString k :: TColon :: t :: rest =>
      match scalar t with
      | Some v =>
          match rest with
          | [TRBrace] => Some (<[k := v]> acc)
          | TComma :: rest' => members (<[k := v]> acc) rest'
          | _ => None
          end
      | None => None
      end
  | _ => None
  end.

Fixpoint elements (toks : list token) : option (list pyval) :=
  match toks with
  | t :: rest =>
      match scalar t with
      | Some v =>
          match rest with
          | [TRBracket] => Some [v]
          | TComma :: rest' => (fun r => v :: r) <$> elements rest'
          | _ => None
          end
      | None => None
      end
  | [] => None
  end.

Definition decode (s : pystr) : option pyval :=
  match lex Outside s with
  | Some [TLBrace; TRBrace] => Some (PDict ∅)
  | Some (TLBrace :: toks) => PDict <$> members ∅ toks
  | Some [TLBracket; TRBracket] => Some (PList [])
  | Some (TLBracket :: toks) => PList <$> elements toks
  | Some [t] => scalar t
  | _ => None
  end.

Definition loads (s : pystr) : json_result :=
  if starts_with_long_integer (lstrip_by is_ws s) then DecodeRaised ValueError
  else
    match decode s with
    | Some v => Decoded v
    | None => JSONDecodeError
    end.

End Json.

(** ** Sample records *)

(** Records used to instantiate the theorems below. *)

Definition sample_judgment (answer : pystr) : Question :=
  mkQuestion JUDGMENT (py "2 + 2 = 4") (PDict ∅) (py "unit 1") answer (py "arithmetic").

Definition sample_multi_select (answer : pystr) : Question :=
  mkQuestion MULTI_SELECT (py "pick the primes")
             (PDict (<[LABEL_A := PStr (py "2")]> ∅)) (py "unit 2") answer (py "primes").

Definition sample_single_choice (answer : pystr) : Question :=
  mkQuestion (py "单选题") (py "1 + 1 = ?")
             (PDict (<[LABEL_A := PStr (py "2")]> ∅)) (py "unit 3") answer (py "sums").

(** The answer text ["A", "B", "C"] with its brackets, quotes, commas and
    spaces. *)
Definition ANSWER_LIST_ABC : pystr :=
  py "[" ++ DQUOTE ++ py "A" ++ DQUOTE ++ py ", " ++ DQUOTE ++ py "B" ++ DQUOTE
         ++ py ", " ++ DQUOTE ++ py "C" ++ DQUOTE ++ py "]".

(** A judgment record answered 错. *)
Definition judgment_answered_cuo : Question := sample_judgment (py "错").

(** A judgment record that already has an option C and whose answer is C. *)
Definition judgment_with_option_C : Question :=
  mkQuestion JUDGMENT (py "2 + 2 = 4")
             (PDict (<[LABEL_C := PStr (py "maybe")]> ∅))
             (py "unit 1") LABEL_C (py "arithmetic").

Definition sample_batch : list Question :=
  [sample_single_choice (py "A"); sample_judgment []; sample_multi_select (py "  ")].

(** ** Sample documents *)

Definition div (cls : pystr) (attrs : gmap (list N) (list N)) (contents : list node)
  : node :=
  Tag (py "div") [cls] attrs contents.

Definition span (cls : pystr) (contents : list node) : node :=
  Tag (py "span") [cls] ∅ contents.

(** An option item rendered as the label in its own element, then the
    separator, a space and the text. *)
Definition rendered_item (label text : pystr) : node :=
  div (py "option-item") ∅
      [span (py "option-label") [NavigableString label];
       NavigableString (py ": " ++ text)].

(** An option item whose label element holds the label and the colon, with
    the text after a space in the next text node. *)
Definition rendered_item_colon_in_label (label text : pystr) : node :=
  div (py "option-item") ∅
      [span (py "option-label") [NavigableString (label ++ py ":")];
       NavigableString (py " " ++ text)].

Definition sample_container (attrs : gmap (list N) (list N)) (items : list node)
  : node :=
  div (py "optionsContainer") attrs items.

(** A document with one question card around the given options container. *)
Definition sample_card (inner : list node) : node :=
  div (py "question-card") ∅
      ([span (py "question-type") [NavigableString (py " 单选题 ")];
        div (py "question-text") ∅ [NavigableString (py "1 + 1 = ?")]]
       ++ inner ++
       [div (py "question-meta") ∅ [span (py "meta") [NavigableString (py "unit 3")]];
        div (py "correct-answer") ∅ [span (py "answer") [NavigableString (py "A")]];
        span (py "current-knowledge-point") [NavigableString (py "sums")]]).

Definition sample_soup (inner : list node) : node :=
  Tag (py "[document]") [] ∅ [sample_card inner].

(** The attribute text {"A":"x","B":"y"} with its quotes escaped. *)
Definition ENCODED_AB : pystr :=
  py "{&quot;A&quot;:&quot;x&quot;,&quot;B&quot;:&quot;y&quot;}".

Definition items_A_C : list node :=
  [rendered_item (py "A") (py "first"); rendered_item (py "C") (py "third")].

Definition container_AB_with_A_C : node :=
  sample_container (<[py "data-options" := ENCODED_AB]> ∅) items_A_C.

Definition container_rendered_A_B : node :=
  sample_container ∅
    [rendered_item (py "A") (py "first"); rendered_item (py "B") (py "second")].

(** An attribute text cut short: {"A": after unescaping. *)
Definition ENCODED_TRUNCATED : pystr := py "{&quot;A&quot;:".

Definition container_malformed : node :=
  sample_container (<[py "data-options" := ENCODED_TRUNCATED]> ∅)
    [rendered_item (py "A") (py "first"); rendered_item (py "B") (py "second")].

(** An attribute text that is no JSON text: 5000 digits and a letter. *)
Definition ENCODED_LONG_INTEGER : pystr := replicate 5000 49 ++ py "x".

Definition container_long_integer : node :=
  sample_container (<[py "data-options" := ENCODED_LONG_INTEGER]> ∅)
    [rendered_item (py "A") (py "first"); rendered_item (py "B") (py "second")].

(** The first option item of the page of the example of parser.py (lines
    201-203), with its line breaks and its indentation, and its text. *)
Definition EXAMPLE_TEXT_A : pystr :=
  Eval cbv in py "顶层扇出较少，中间层扇出较高，底层模块低扇入".

Definition example_item_A : node :=
  page_item ([10] ++ py "                    ") (py "A:")
            (py " " ++ EXAMPLE_TEXT_A ++ [10] ++ py "                ").

Definition container_example_item : node := sample_container ∅ [example_item_A].

(** A container whose encoded attribute is the JSON number 1, with one
    rendered item. *)
Definition container_number : node :=
  sample_container (<[py "data-options" := py "1"]> ∅)
    [rendered_item (py "A") (py "first")].

(** ** Sample pages and responses *)

(** Stand-ins for the serializer and the HTML parser of the library on the
    sample pages below: a card is written as its [id], and the texts page,
    bad and odd and the ids of the cards are read back as the documents
    they name. They only instantiate the parameters [str_node] and
    [BeautifulSoup] in the examples. *)
Definition with_id (id : pystr) (n : node) : node :=
  match n with
  | NavigableString s => NavigableString s
  | Tag name classes attrs contents => Tag name classes (<[py "id" := id]> attrs) contents
  end.

Definition document (contents : list node) : node :=
  Tag (py "[document]") [] ∅ contents.

Definition card_q1 : node := with_id (py "q1") (sample_card [container_AB_with_A_C]).

Definition card_q2 : node := with_id (py "q2") (sample_card []).

(** A card whose encoded attribute is a number: the extractor raises on it. *)
Definition card_q3 : node := with_id (py "q3") (sample_card [container_number]).

(** A card without an answer. *)
Definition card_q4 : node :=
  with_id (py "q4")
    (div (py "question-card") ∅
       [span (py "question-type") [NavigableString (py "单选题")];
        div (py "question-text") ∅ [NavigableString (py "2 + 2 = ?")]]).

(** A judgment card whose encoded attribute is an empty list. *)
Definition card_q5 : node :=
  with_id (py "q5")
    (div (py "question-card") ∅
       [span (py "question-type") [NavigableString (py "判断题")];
        sample_container (<[py "data-options" := py "[]"]> ∅) []]).

Definition sample_page : node := document [card_q1; card_q2; card_q4].
Definition bad_page : node := document [card_q1; card_q3].
Definition odd_page : node := document [card_q5].

Definition sample_str_node (n : node) : pystr :=
  default [] (get (py "id") n).

Definition sample_BeautifulSoup (html : pystr) : node :=
  if eqb html (py "page") then sample_page
  else if eqb html (py "bad") then bad_page
  else if eqb html (py "odd") then odd_page
  else if eqb html (py "q1") then document [card_q1]
  else if eqb html (py "q2") then document [card_q2]
  else if eqb html (py "q3") then document [card_q3]
  else if eqb html (py "q4") then document [card_q4]
  else if eqb html (py "q5") then document [card_q5]
  else document [].

(** A server that answers the page numbers of [table] as the table says and
    every other page with an empty page. *)
Definition sample_session_get (table : list (Z * http_result)) (url : pystr)
    (params : gmap (list N) param) : http_result :=
  match params !! py "page" with
  | Some (ParamInt page) =>
      default (HttpResponse 200 [])
              ((list_to_map table : gmap Z http_result) !! page)
  | _ => HttpResponse 200 []
  end.

Definition sample_table : list (Z * http_result) :=
  [(1%Z, HttpResponse 200 (py "page")); (2%Z, HttpResponse 404 []);
   (3%Z, HttpRaised); (4%Z, HttpResponse 200 (py "bad"));
   (5%Z, HttpResponse 200 (py "odd"))].

Definition raising_table : list (Z * http_result) :=
  [(1%Z, HttpResponse 200 (py "page")); (2%Z, HttpRaised)].

Definition sample_pd (page : Z) : page_data :=
  mkPageData page 15 [SINGLE_CHOICE; JUDGMENT; MULTI_SELECT] COURSE.

(** The records of the sample page. *)
Definition sample_page_records : list Question :=
  Eval vm_compute in
    match parse_questions_from_page Json.loads sample_BeautifulSoup sample_str_node
                                    (py "page") with
    | Ok questions => questions
    | Raise _ => []
    end.

(** A record whose option A is a surrogate on its own, as [json.loads]
    returns it for the escape of U+D83D. *)
Definition sample_lone_surrogate : Question :=
  mkQuestion SINGLE_CHOICE (py "1 + 1 = ?") (PDict (<[LABEL_A := PStr [55357]]> ∅))
             (py "unit 3") (py "A") (py "sums").

(** A file layer that refuses the empty name and opens every other file. *)
Definition sample_open_error (name : pystr) : option py_exception :=
  if truthy name then None else Some OSError.


(** * Properties *)

(** ** Strings *)

Lemma truthy_true (s : pystr) : truthy s = true ↔ s ≠ [].
Proof. destruct s; simpl; split; intros H; congruence. Qed.

Lemma truthy_false (s : pystr) : truthy s = false ↔ s = [].
Proof. destruct s; simpl; split; intros H; congruence. Qed.

Lemma eqb_eq (s t : pystr) : eqb s t = true ↔ s = t.
Proof. unfold eqb. by rewrite bool_decide_eq_true. Qed.

Lemma eqb_neq (s t : pystr) : eqb s t = false ↔ s ≠ t.
Proof. unfold eqb. by rewrite bool_decide_eq_false. Qed.

Lemma replace_one_char (c : N) (s : pystr) :
  replace [c] [] s = filter (fun x => x ≠ c) s.
Proof.
  unfold replace. induction s as [|x s IH]; [done|].
  cbn [replace_scan starts_with length Nat.pred app].
  rewrite filter_cons. destruct (N.eqb_spec c x) as [->|Hne]; simpl.
  - rewrite decide_False by (intros H; apply H; reflexivity). exact IH.
  - rewrite decide_True by congruence. by rewrite IH.
Qed.

Lemma strip_answer_punctuation_filter (a : pystr) :
  strip_answer_punctuation a = filter (fun c => c ∉ ANSWER_PUNCTUATION) a.
Proof.
  unfold strip_answer_punctuation, DQUOTE.
  change (py ",") with [44]. change (py "'") with [39].
  change (py " ") with [32]. change (py "]") with [93]. change (py "[") with [91].
  rewrite !replace_one_char, !list_filter_filter.
  apply list_filter_iff. intros x. unfold ANSWER_PUNCTUATION.
  rewrite !not_elem_of_cons. pose proof (not_elem_of_nil x). tauto.
Qed.

Lemma strip_answer_punctuation_idem (a : pystr) :
  strip_answer_punctuation (strip_answer_punctuation a) = strip_answer_punctuation a.
Proof.
  rewrite !strip_answer_punctuation_filter, list_filter_filter.
  apply list_filter_iff. tauto.
Qed.

(** ** Normalizer: one record *)

Lemma convert_judgment_dict (q : Question) (m : gmap (list N) pyval) :
  options q = PDict m →
  convert_judgment_to_choice q =
    Ok (mkQuestion (type q) (question q) (PDict (judgment_options m)) (source q)
                   (remapped_answer (correct_answer q)) (knowledge_point q)).
Proof.
  intros Hm. unfold convert_judgment_to_choice, remapped_answer. rewrite Hm.
  simpl. f_equal.
  destruct (in_list _ TRUE_ANSWERS || contains LABEL_A _); [done|].
  destruct (in_list _ FALSE_ANSWERS || contains LABEL_B _); done.
Qed.

Lemma convert_judgment_not_dict (q : Question) :
  ¬ is_dict (options q) → convert_judgment_to_choice q = Raise TypeError.
Proof.
  intros Hm. unfold convert_judgment_to_choice.
  destruct (options q); simpl in *; tauto.
Qed.

Lemma normalize_judgment (q : Question) (m : gmap (list N) pyval) :
  type q = JUDGMENT → options q = PDict m →
  normalize_record q =
    Ok (mkQuestion (type q) (question q) (PDict (judgment_options m)) (source q)
                   (remapped_answer (correct_answer q)) (knowledge_point q)).
Proof.
  intros Ht Hm. unfold normalize_record.
  rewrite (proj2 (eqb_eq _ _) Ht), (convert_judgment_dict q m Hm). simpl.
  rewrite (proj2 (eqb_neq (type q) MULTI_SELECT)) by (rewrite Ht; discriminate).
  reflexivity.
Qed.

Lemma normalize_multi_select (q : Question) :
  type q = MULTI_SELECT →
  normalize_record q =
    Ok (set_correct_answer q (strip_answer_punctuation (correct_answer q))).
Proof.
  intros Ht. unfold normalize_record.
  rewrite (proj2 (eqb_neq (type q) JUDGMENT)) by (rewrite Ht; discriminate).
  simpl. by rewrite (proj2 (eqb_eq _ _) Ht).
Qed.

Lemma normalize_other (q : Question) :
  type q ≠ JUDGMENT → type q ≠ MULTI_SELECT → normalize_record q = Ok q.
Proof.
  intros H1 H2. unfold normalize_record.
  rewrite (proj2 (eqb_neq _ _) H1). simpl.
  by rewrite (proj2 (eqb_neq _ _) H2).
Qed.

Lemma normalize_convertible (q : Question) :
  convertible q → ∃ q', normalize_record q = Ok q'.
Proof.
  intros Hq. destruct (decide (type q = JUDGMENT)) as [Ht|Ht].
  - specialize (Hq Ht). destruct (options q) as [| | | | |m] eqn:Hm; try done.
    eexists. by apply normalize_judgment.
  - destruct (decide (type q = MULTI_SELECT)) as [Hs|Hs].
    + eexists. by apply normalize_multi_select.
    + eexists. by apply normalize_other.
Qed.

Lemma remapped_answer_idem (a : pystr) :
  remapped_answer (remapped_answer a) = remapped_answer a.
Proof.
  unfold remapped_answer at 2 3. cbv zeta.
  destruct (in_list _ TRUE_ANSWERS || contains LABEL_A _) eqn:HA;
    [vm_compute; reflexivity|].
  destruct (in_list _ FALSE_ANSWERS || contains LABEL_B _) eqn:HB;
    [vm_compute; reflexivity|].
  unfold remapped_answer. cbv zeta. by rewrite HA, HB.
Qed.

Lemma judgment_options_idem (m : gmap (list N) pyval) :
  judgment_options (judgment_options m) = judgment_options m.
Proof.
  unfold judgment_options. apply map_eq. intros k.
  rewrite !lookup_insert. repeat case_decide; congruence.
Qed.

Lemma normalize_answer_cases (q q' : Question) :
  normalize_record q = Ok q' →
  correct_answer q' = remapped_answer (correct_answer q)
  ∨ correct_answer q' = strip_answer_punctuation (correct_answer q)
  ∨ correct_answer q' = correct_answer q.
Proof.
  intros Hn. destruct (decide (type q = JUDGMENT)) as [Ht|Ht].
  - destruct (options q) as [| | | | |m] eqn:Hm;
      try (unfold normalize_record in Hn;
           rewrite (proj2 (eqb_eq _ _) Ht), convert_judgment_not_dict in Hn
             by (rewrite Hm; simpl; tauto);
           discriminate Hn).
    rewrite (normalize_judgment q m Ht Hm) in Hn. injection Hn as <-. by left.
  - destruct (decide (type q = MULTI_SELECT)) as [Hs|Hs].
    + rewrite (normalize_multi_select q Hs) in Hn. injection Hn as <-.
      right. by left.
    + rewrite (normalize_other q Ht Hs) in Hn. injection Hn as <-.
      right. by right.
Qed.

(** The general rule of lines 167-172, as the claim C2 words it: A when the
    trimmed answer is in the first list or contains "A"; otherwise B when it
    is in the second list or contains "B"; otherwise the answer as it was. *)
Lemma judgment_answer_rule (q : Question) (m : gmap (list N) pyval) :
  type q = JUDGMENT → options q = PDict m →
  ∃ q', normalize_record q = Ok q'
    ∧ options q' = PDict (<[LABEL_B := PStr FALSE_TEXT]> (<[LABEL_A := PStr TRUE_TEXT]> m))
    ∧ let t := strip (correct_answer q) in
      (t ∈ TRUE_ANSWERS ∨ contains LABEL_A t = true → correct_answer q' = LABEL_A)
      ∧ (¬ (t ∈ TRUE_ANSWERS ∨ contains LABEL_A t = true) →
         t ∈ FALSE_ANSWERS ∨ contains LABEL_B t = true → correct_answer q' = LABEL_B)
      ∧ (¬ (t ∈ TRUE_ANSWERS ∨ contains LABEL_A t = true) →
         ¬ (t ∈ FALSE_ANSWERS ∨ contains LABEL_B t = true) →
         correct_answer q' = correct_answer q).
Proof.
  intros Ht Hm. eexists. split; [by apply normalize_judgment|].
  split; [done|]. simpl. unfold remapped_answer, in_list. cbv zeta.
  set (t := strip (correct_answer q)).
  destruct (bool_decide (t ∈ TRUE_ANSWERS)) eqn:H1;
    [apply bool_decide_eq_true in H1|apply bool_decide_eq_false in H1];
  destruct (contains LABEL_A t) eqn:H2; simpl;
  destruct (bool_decide (t ∈ FALSE_ANSWERS)) eqn:H3;
    [apply bool_decide_eq_true in H3|apply bool_decide_eq_false in H3
    |apply bool_decide_eq_true in H3|apply bool_decide_eq_false in H3
    |apply bool_decide_eq_true in H3|apply bool_decide_eq_false in H3
    |apply bool_decide_eq_true in H3|apply bool_decide_eq_false in H3];
  destruct (contains LABEL_B t) eqn:H4; simpl;
  repeat split; intros; try done; try tauto;
  exfalso; intuition congruence.
Qed.

(** C2. Evaluation of the normalizer on a judgment record answered 错, the
    word the site shows for the false option (parser.py, line 260): the
    options get their two fixed texts, but 错 is in neither list of lines
    167 and 169 and contains neither letter, so the answer stays 错 and is
    not B, although the code announces that every answer other than the
    true ones is set to B (line 166). *)
Lemma judgment_answered_cuo_kept :
  type judgment_answered_cuo = JUDGMENT
  ∧ (strip (correct_answer judgment_answered_cuo) ∉ TRUE_ANSWERS)
  ∧ (strip (correct_answer judgment_answered_cuo) ∉ FALSE_ANSWERS)
  ∧ ∃ q', normalize_record judgment_answered_cuo = Ok q'
      ∧ options q' =
          PDict (<[LABEL_B := PStr FALSE_TEXT]> (<[LABEL_A := PStr TRUE_TEXT]> ∅))
      ∧ correct_answer q' = py "错"
      ∧ correct_answer q' ≠ LABEL_B.
Proof.
  split; [reflexivity|].
  split.
  { intros H. apply (bool_decide_eq_true_2 _) in H. vm_compute in H.
    discriminate H. }
  split.
  { intros H. apply (bool_decide_eq_true_2 _) in H. vm_compute in H.
    discriminate H. }
  eexists. split; [by apply normalize_judgment|]. simpl.
  split; [reflexivity|]. split; [by vm_compute|]. by vm_compute.
Qed.

(** The rule of lines 167 to 172 with its ties and two of its answers:
    normalizing a judgment record (with a mapping as options) sets options
    A and B to the fixed texts, over any earlier A or B, and sets the
    answer to A when the original trimmed answer is in the first list or
    contains "A", otherwise to B when it is in the second list or contains
    "B", otherwise leaves it as it was; an answer that contains both letters
    becomes A; the answer 对 becomes A and the answer 错误 becomes B. *)
Theorem judgment_answer_remap (q : Question) (m : gmap (list N) pyval) :
  type q = JUDGMENT → options q = PDict m →
  ∃ q', normalize_record q = Ok q'
    ∧ options q' = PDict (<[LABEL_B := PStr FALSE_TEXT]> (<[LABEL_A := PStr TRUE_TEXT]> m))
    ∧ let t := strip (correct_answer q) in
      (t ∈ TRUE_ANSWERS ∨ contains LABEL_A t = true → correct_answer q' = LABEL_A)
      ∧ (¬ (t ∈ TRUE_ANSWERS ∨ contains LABEL_A t = true) →
         t ∈ FALSE_ANSWERS ∨ contains LABEL_B t = true → correct_answer q' = LABEL_B)
      ∧ (¬ (t ∈ TRUE_ANSWERS ∨ contains LABEL_A t = true) →
         ¬ (t ∈ FALSE_ANSWERS ∨ contains LABEL_B t = true) →
         correct_answer q' = correct_answer q)
      ∧ (contains LABEL_A t = true → contains LABEL_B t = true →
         correct_answer q' = LABEL_A)
      ∧ (correct_answer q = py "对" → correct_answer q' = LABEL_A)
      ∧ (correct_answer q = py "错误" → correct_answer q' = LABEL_B).
Proof.
  intros Ht Hm.
  destruct (judgment_answer_rule q m Ht Hm) as (q' & Hq' & Ho & HA & HB & HC).
  exists q'. split; [exact Hq'|]. split; [exact Ho|]. cbv zeta.
  split; [exact HA|]. split; [exact HB|]. split; [exact HC|].
  split; [intros H _; apply HA; by right|].
  split.
  - intros Hq. apply HA. left. rewrite Hq.
    apply (bool_decide_eq_true_1 _). by vm_compute.
  - intros Hq. apply HB; rewrite Hq.
    + intros [H|H]; [apply (bool_decide_eq_true_2 _) in H|];
        vm_compute in H; discriminate H.
    + left. apply (bool_decide_eq_true_1 _). by vm_compute.
Qed.

Lemma judgment_answer_remap_witness :
  type (sample_judgment (py "错误")) = JUDGMENT
  ∧ options (sample_judgment (py "错误")) = PDict ∅
  ∧ ∃ q', normalize_record (sample_judgment (py "错误")) = Ok q'
      ∧ options q' = PDict (<[LABEL_B := PStr FALSE_TEXT]> (<[LABEL_A := PStr TRUE_TEXT]> ∅))
      ∧ correct_answer q' = LABEL_B.
Proof.
  split; [reflexivity|]. split; [reflexivity|].
  destruct (judgment_answer_remap (sample_judgment (py "错误")) ∅)
    as (q' & Hq' & Ho & _ & _ & _ & _ & _ & HB); [reflexivity|reflexivity|].
  exists q'. split; [exact Hq'|]. split; [exact Ho|]. apply HB. reflexivity.
Defined.

(** C3, counterexample. Normalizing [judgment_with_option_C] keeps the
    option C next to A and B (three options) and keeps the answer C, so the
    invariant as claimed fails on the normalized record. *)
Lemma judgment_invariant_counterexample :
  ∃ q' m',
    normalize_record judgment_with_option_C = Ok q'
    ∧ options q' = PDict m'
    ∧ size m' = 3%nat
    ∧ correct_answer q' = LABEL_C
    ∧ ¬ judgment_invariant q'.
Proof.
  eexists _, _. split; [by apply normalize_judgment|]. simpl.
  split; [reflexivity|]. split; [by vm_compute|]. split; [by vm_compute|].
  intros (m' & Hm' & _ & _ & _ & Hans). simpl in Hans.
  destruct Hans as [H|H]; [by vm_compute|vm_compute in H..]; discriminate H.
Qed.

(** C3, amended. After normalization a judgment record (with a mapping as
    options) has the options A and B with the fixed texts next to the labels
    it already had, hence exactly A and B when it had no other label, and
    its answer is A or B whenever the original trimmed answer is in one of
    the two fixed lists or contains "A" or "B". *)
Theorem judgment_invariant_amended (q : Question) (m : gmap (list N) pyval) :
  type q = JUDGMENT → options q = PDict m →
  ∃ q' m',
    normalize_record q = Ok q'
    ∧ options q' = PDict m'
    ∧ m' !! LABEL_A = Some (PStr TRUE_TEXT)
    ∧ m' !! LABEL_B = Some (PStr FALSE_TEXT)
    ∧ dom m' = {[LABEL_A; LABEL_B]} ∪ dom m
    ∧ (dom m ⊆ {[LABEL_A; LABEL_B]} → dom m' = {[LABEL_A; LABEL_B]})
    ∧ (recognized (strip (correct_answer q)) →
       correct_answer q' = LABEL_A ∨ correct_answer q' = LABEL_B).
Proof.
  intros Ht Hm.
  destruct (judgment_answer_rule q m Ht Hm) as (q' & Hq' & Ho & HA & HB & _).
  exists q', (judgment_options m). split; [done|]. split; [done|].
  assert (dom (judgment_options m) = {[LABEL_A; LABEL_B]} ∪ dom m) as Hdom.
  { unfold judgment_options. rewrite !dom_insert_L. set_solver. }
  split; [unfold judgment_options; by rewrite lookup_insert_ne, lookup_insert_eq|].
  split; [unfold judgment_options; by rewrite lookup_insert_eq|].
  split; [done|]. split; [rewrite Hdom; set_solver|].
  intros Hrec. unfold recognized in Hrec.
  destruct (decide (strip (correct_answer q) ∈ TRUE_ANSWERS
                    ∨ contains LABEL_A (strip (correct_answer q)) = true)) as [H|H].
  - left. by apply HA.
  - right. apply HB; tauto.
Qed.

Lemma judgment_invariant_amended_witness :
  type (sample_judgment (py " 否 ")) = JUDGMENT
  ∧ options (sample_judgment (py " 否 ")) = PDict ∅
  ∧ ∃ q' m',
      normalize_record (sample_judgment (py " 否 ")) = Ok q'
      ∧ options q' = PDict m'
      ∧ m' !! LABEL_A = Some (PStr TRUE_TEXT)
      ∧ m' !! LABEL_B = Some (PStr FALSE_TEXT)
      ∧ dom m' = {[LABEL_A; LABEL_B]} ∪ dom (∅ : gmap (list N) pyval)
      ∧ (dom (∅ : gmap (list N) pyval) ⊆ {[LABEL_A; LABEL_B]} →
         dom m' = {[LABEL_A; LABEL_B]})
      ∧ (recognized (strip (correct_answer (sample_judgment (py " 否 ")))) →
         correct_answer q' = LABEL_A ∨ correct_answer q' = LABEL_B).
Proof.
  split; [reflexivity|]. split; [reflexivity|].
  apply (judgment_invariant_amended (sample_judgment (py " 否 ")) ∅);
    reflexivity.
Defined.

(** C6. For a multi-select record, normalization replaces [correct_answer]
    by the same text without its occurrences of the two square brackets,
    space, double quote, single quote and comma: every other character
    stays, in order, and no other field changes. The answer text
    ["A", "B", "C"], written as a list, becomes ABC. *)
Theorem multi_select_answer_canonical (q : Question) :
  type q = MULTI_SELECT →
  normalize_record q =
    Ok (mkQuestion (type q) (question q) (options q) (source q)
          (filter (fun c => c ∉ ANSWER_PUNCTUATION) (correct_answer q))
          (knowledge_point q))
  ∧ (correct_answer q = ANSWER_LIST_ABC →
     filter (fun c => c ∉ ANSWER_PUNCTUATION) (correct_answer q) = py "ABC").
Proof.
  intros Ht. split.
  - rewrite (normalize_multi_select q Ht), strip_answer_punctuation_filter.
    reflexivity.
  - intros ->. vm_compute. reflexivity.
Qed.

Lemma multi_select_answer_canonical_witness :
  type (sample_multi_select ANSWER_LIST_ABC) = MULTI_SELECT
  ∧ normalize_record (sample_multi_select ANSWER_LIST_ABC)
    = Ok (sample_multi_select (py "ABC")).
Proof.
  split; [reflexivity|].
  destruct (multi_select_answer_canonical (sample_multi_select ANSWER_LIST_ABC))
    as [Hn Hex]; [reflexivity|].
  rewrite Hn, Hex by reflexivity. reflexivity.
Defined.

(** C9. Normalization of a record never changes its prompt, source,
    knowledge point or type (a judgment record stays a judgment record),
    and a record that is neither a judgment nor a multi-select record comes
    out unchanged in every field. Records are those of the data model: the
    options of a judgment record are a mapping ([convertible]). *)
Theorem normalize_frame (q : Question) :
  convertible q →
  ∃ q', normalize_record q = Ok q'
    ∧ question q' = question q
    ∧ source q' = source q
    ∧ knowledge_point q' = knowledge_point q
    ∧ type q' = type q
    ∧ (type q ≠ JUDGMENT → type q ≠ MULTI_SELECT → q' = q).
Proof.
  intros Hq. destruct (decide (type q = JUDGMENT)) as [Ht|Ht].
  - specialize (Hq Ht). destruct (options q) as [| | | | |m] eqn:Hm; try done.
    eexists. split; [by apply normalize_judgment|]. simpl. tauto.
  - destruct (decide (type q = MULTI_SELECT)) as [Hs|Hs].
    + eexists. split; [by apply normalize_multi_select|]. simpl. tauto.
    + exists q. split; [by apply normalize_other|]. tauto.
Qed.

Lemma normalize_frame_witness :
  convertible (sample_judgment (py "对"))
  ∧ ∃ q', normalize_record (sample_judgment (py "对")) = Ok q'
      ∧ question q' = py "2 + 2 = 4"
      ∧ type q' = JUDGMENT.
Proof.
  split; [intros _; exact I|].
  destruct (normalize_frame (sample_judgment (py "对")))
    as (q' & Hn & Hq & _ & _ & Ht & _); [intros _; exact I|].
  exists q'. split; [exact Hn|]. split; [exact Hq|exact Ht].
Defined.

(** C10. The per-record transform is idempotent: when it is applied to its
    own result it returns that result again. Records are those of the data
    model: the options of a judgment record are a mapping ([convertible]). *)
Theorem normalize_idempotent (q : Question) :
  convertible q →
  ∃ q', normalize_record q = Ok q' ∧ normalize_record q' = Ok q'.
Proof.
  intros Hq. destruct (decide (type q = JUDGMENT)) as [Ht|Ht].
  - specialize (Hq Ht). destruct (options q) as [| | | | |m] eqn:Hm; try done.
    eexists. split; [by apply normalize_judgment|].
    erewrite normalize_judgment; [|exact Ht|reflexivity]. simpl.
    by rewrite remapped_answer_idem, judgment_options_idem.
  - destruct (decide (type q = MULTI_SELECT)) as [Hs|Hs].
    + eexists. split; [by apply normalize_multi_select|].
      rewrite normalize_multi_select by exact Hs. unfold set_correct_answer. simpl.
      by rewrite strip_answer_punctuation_idem.
    + exists q. split; by apply normalize_other.
Qed.

Lemma normalize_idempotent_witness :
  convertible (sample_judgment (py "对"))
  ∧ ∃ q', normalize_record (sample_judgment (py "对")) = Ok q'
      ∧ normalize_record q' = Ok q'.
Proof.
  split; [intros _; exact I|].
  apply (normalize_idempotent (sample_judgment (py "对"))). intros _. exact I.
Defined.

(** ** Normalizer: the partition of a batch *)

Lemma answer_is_empty_false (q : Question) :
  answer_is_empty q = false ↔ answered q.
Proof.
  unfold answer_is_empty, answered. rewrite negb_false_iff. apply truthy_true.
Qed.

Lemma answer_is_empty_true (q : Question) :
  answer_is_empty q = true ↔ ¬ answered q.
Proof.
  unfold answer_is_empty, answered. rewrite negb_true_iff, truthy_false.
  split; [intros -> H; by apply H|apply dec_stable].
Qed.

Lemma normalized_exists (qs : list Question) :
  Forall convertible qs → ∃ qs', normalized qs qs'.
Proof.
  induction 1 as [|q qs Hq _ [qs' IH]]; [exists []; constructor|].
  destruct (normalize_convertible q Hq) as [q' Hq'].
  exists (q' :: qs'). by constructor.
Qed.

Lemma process_loop_normalized (qs qs' processed empty : list Question) :
  normalized qs qs' →
  process_loop qs processed empty =
    Ok (processed ++ filter answered qs',
        empty ++ filter (fun q => ¬ answered q) qs').
Proof.
  intros Hn. revert processed empty.
  induction Hn as [|q q' qs qs' Hq _ IH]; intros processed empty.
  - simpl. by rewrite !app_nil_r.
  - cbn [process_loop]. rewrite Hq. simpl. rewrite !filter_cons.
    destruct (answer_is_empty q') eqn:He.
    + apply answer_is_empty_true in He.
      rewrite IH, decide_False, decide_True by done. by rewrite <- app_assoc.
    + apply answer_is_empty_false in He.
      rewrite IH, decide_True, decide_False by tauto. by rewrite <- app_assoc.
Qed.

(** A record the loop cannot normalize stops the whole batch. *)
Lemma process_loop_raise (qs : list Question) (q : Question)
    (processed empty : list Question) :
  q ∈ qs → ¬ convertible q →
  ∃ e, process_loop qs processed empty = Raise e.
Proof.
  intros Hin Hq. revert processed empty.
  induction qs as [|x qs IH]; intros processed empty; [by apply elem_of_nil in Hin|].
  cbn [process_loop].
  destruct (normalize_record x) as [x'|e'] eqn:Hx; simpl; [|by eexists].
  apply elem_of_cons in Hin as [->|Hin].
  - exfalso. apply Hq. intros Ht.
    destruct (decide (is_dict (options x))) as [|Hd]; [done|].
    unfold normalize_record in Hx.
    rewrite (proj2 (eqb_eq _ _) Ht), (convert_judgment_not_dict x Hd) in Hx.
    discriminate Hx.
  - destruct (answer_is_empty x'); by apply IH.
Qed.

(** The normalizer raises nothing but [TypeError]. *)
Lemma normalize_record_raises_type_error (q : Question) (e : exn) :
  normalize_record q = Raise e → e = TypeError.
Proof.
  unfold normalize_record, convert_judgment_to_choice.
  destruct (eqb (type q) JUDGMENT); [|discriminate].
  destruct (options q); simpl; congruence.
Qed.

Lemma process_loop_raises_type_error (qs processed empty : list Question) (e : exn) :
  process_loop qs processed empty = Raise e → e = TypeError.
Proof.
  revert processed empty.
  induction qs as [|x qs IH]; intros processed empty; [discriminate|].
  cbn [process_loop].
  destruct (normalize_record x) as [x'|e'] eqn:Hx; simpl.
  - destruct (answer_is_empty x'); apply IH.
  - intros [= <-]. by apply (normalize_record_raises_type_error x).
Qed.

(** C5. [process_questions] sends every normalized record to exactly one of
    its two result lists, the first when the answer is not empty after
    trimming and the second otherwise; no record is lost, and each list
    keeps the order of the batch. A batch of three records answered A, the
    empty string and two spaces gives the first record alone in the first
    list and the other two, in order, in the second. Records are those of
    the data model: the options of a judgment record are a mapping
    ([convertible]). *)
Theorem process_questions_partition (qs : list Question) :
  Forall convertible qs →
  ∃ qs' answered_part missing_part,
    normalized qs qs'
    ∧ process_questions qs = Ok (answered_part, missing_part)
    ∧ answered_part = filter answered qs'
    ∧ missing_part = filter (fun q => ¬ answered q) qs'
    ∧ (length answered_part + length missing_part = length qs)%nat
    ∧ answered_part ++ missing_part ≡ₚ qs'
    ∧ answered_part `sublist_of` qs'
    ∧ missing_part `sublist_of` qs'
    ∧ (∀ q', q' ∈ qs' →
         (q' ∈ answered_part ∧ q' ∉ missing_part)
         ∨ (q' ∈ missing_part ∧ q' ∉ answered_part))
    ∧ (∀ r1 r2 r3, qs = [r1; r2; r3] →
         correct_answer r1 = py "A" →
         correct_answer r2 = [] →
         correct_answer r3 = py "  " →
         ∃ r1' r2' r3',
           qs' = [r1'; r2'; r3']
           ∧ answered_part = [r1'] ∧ missing_part = [r2'; r3']).
Proof.
  intros Hqs. destruct (normalized_exists qs Hqs) as [qs' Hn].
  exists qs', (filter answered qs'), (filter (fun q => ¬ answered q) qs').
  split; [done|]. split.
  { unfold process_questions. by rewrite (process_loop_normalized qs qs' [] [] Hn). }
  split; [done|]. split; [done|].
  pose proof (filter_app_complement answered qs') as Hperm.
  split.
  { rewrite <- length_app, Hperm. symmetry. by eapply Forall2_length. }
  split; [done|]. split; [apply sublist_filter|]. split; [apply sublist_filter|].
  split.
  { intros q' Hq'. rewrite !list_elem_of_filter.
    destruct (decide (answered q')); [left|right]; tauto. }
  intros r1 r2 r3 -> H1 H2 H3.
  apply Forall2_cons_inv_l in Hn as (r1' & l1 & Hr1 & Hn & ->).
  apply Forall2_cons_inv_l in Hn as (r2' & l2 & Hr2 & Hn & ->).
  apply Forall2_cons_inv_l in Hn as (r3' & l3 & Hr3 & Hn & ->).
  apply Forall2_nil_inv_l in Hn as ->.
  exists r1', r2', r3'. split; [done|].
  assert (answered r1') as Ha1.
  { unfold answered.
    destruct (normalize_answer_cases _ _ Hr1) as [->|[->| ->]];
      rewrite H1; by vm_compute. }
  assert (¬ answered r2') as Ha2.
  { unfold answered.
    destruct (normalize_answer_cases _ _ Hr2) as [->|[->| ->]];
      rewrite H2; intros H; by apply H. }
  assert (¬ answered r3') as Ha3.
  { unfold answered.
    destruct (normalize_answer_cases _ _ Hr3) as [->|[->| ->]];
      rewrite H3; intros H; by apply H. }
  rewrite !filter_cons, !filter_nil.
  rewrite (decide_True (P := answered r1')), (decide_False (P := answered r2')),
    (decide_False (P := answered r3')) by done.
  rewrite (decide_False (P := ¬ answered r1')), (decide_True (P := ¬ answered r2')),
    (decide_True (P := ¬ answered r3')) by tauto.
  done.
Qed.

Lemma process_questions_partition_witness :
  Forall convertible sample_batch
  ∧ ∃ r1' r2' r3',
      process_questions sample_batch = Ok ([r1'], [r2'; r3'])
      ∧ normalized sample_batch [r1'; r2'; r3'].
Proof.
  assert (Forall convertible sample_batch) as Hb.
  { repeat constructor; intros Ht; try exact I; discriminate Ht. }
  split; [exact Hb|].
  destruct (process_questions_partition sample_batch Hb)
    as (qs' & a & m & Hn & Hp & _ & _ & _ & _ & _ & _ & _ & Hex).
  destruct (Hex _ _ _ eq_refl eq_refl eq_refl eq_refl)
    as (r1' & r2' & r3' & -> & -> & ->).
  exists r1', r2', r3'. split; [exact Hp|exact Hn].
Defined.

(** ** Extractor: the options of a container *)

Lemma add_missing_dict (items : list node) (m : gmap (list N) pyval) :
  add_missing items (PDict m) = Ok (PDict (merge_missing m items)).
Proof.
  revert m. induction items as [|item items IH]; intros m; [done|].
  cbn [add_missing merge_missing foldl]. cbv zeta.
  destruct (truthy (item_label item)); simpl; [|apply IH].
  destruct (bool_decide (is_Some (m !! item_label item))); simpl; apply IH.
Qed.

Lemma merge_missing_lookup (m : gmap (list N) pyval) (items : list node) (k : pystr) :
  merge_missing m items !! k =
    match m !! k with
    | Some v => Some v
    | None =>
        if truthy k
        then (fun item => PStr (item_text item)) <$> first_labelled k items
        else None
    end.
Proof.
  revert m. induction items as [|item items IH]; intros m.
  { simpl. destruct (m !! k); [done|]. by destruct (truthy k). }
  cbn [merge_missing foldl]. fold (merge_missing).
  unfold first_labelled. rewrite filter_cons.
  destruct (truthy (item_label item)) eqn:Hl; simpl.
  - destruct (bool_decide (is_Some (m !! item_label item))) eqn:Hin; simpl.
    + apply bool_decide_eq_true in Hin. rewrite IH.
      destruct (m !! k) eqn:Hk; [done|].
      destruct (decide (item_label item = k)) as [Heq|Hne]; [|done].
      rewrite Heq, Hk in Hin. by destruct Hin.
    + apply bool_decide_eq_false in Hin. rewrite IH.
      destruct (decide (item_label item = k)) as [Heq|Hne].
      * rewrite Heq, lookup_insert_eq.
        rewrite Heq in Hin, Hl.
        destruct (m !! k) eqn:Hk; [exfalso; by apply Hin|].
        by rewrite Hl.
      * by rewrite lookup_insert_ne.
  - rewrite IH. destruct (m !! k) eqn:Hk; [done|].
    destruct (decide (item_label item = k)) as [Heq|Hne]; [|done].
    rewrite <- Heq, Hl. done.
Qed.

(** What the loops of lines 47-51 and 55-59 leave under a key: the text of
    the last item carrying that label. *)
Lemma items_into_lookup (m : gmap (list N) pyval) (items : list node) (k : pystr) :
  items_into m items !! k =
    match last (filter (fun item => item_label item = k) items) with
    | Some item => Some (PStr (item_text item))
    | None => m !! k
    end.
Proof.
  revert m. induction items as [|item items IH]; intros m; [done|].
  cbn [items_into foldl]. fold (items_into). rewrite IH, filter_cons.
  destruct (decide (item_label item = k)) as [Heq|Hne].
  - rewrite last_cons. destruct (last _); [done|].
    by rewrite Heq, lookup_insert_eq.
  - destruct (last _); [done|]. by rewrite lookup_insert_ne.
Qed.

(** After the loop of lines 47-51 or 55-59 every label is in the dict, so
    the loop of lines 63-68 adds nothing. *)
Lemma merge_missing_items_into (m : gmap (list N) pyval) (items : list node) :
  merge_missing (items_into m items) items = items_into m items.
Proof.
  apply map_eq. intros k. rewrite merge_missing_lookup.
  destruct (items_into m items !! k) eqn:Hk; [done|].
  destruct (truthy k); [|done].
  unfold first_labelled. rewrite items_into_lookup in Hk.
  destruct (filter _ items) as [|x l] eqn:Hf; [done|].
  exfalso. destruct (last (x :: l)) eqn:Hlast; [done|].
  by apply last_None in Hlast.
Qed.

Lemma get_text_empty_strip (n : node) : get_text n = [] → get_text_strip n = [].
Proof.
  unfold get_text, get_text_strip.
  induction (all_strings n) as [|s l IH]; [done|].
  simpl. intros H. apply app_eq_nil in H as [-> Hl]. simpl. by apply IH.
Qed.

Lemma item_text_drop (item : node) : item_text item = drop 3 (get_text_strip item).
Proof.
  unfold item_text. destruct (truthy (get_text item)) eqn:Ht; [done|].
  apply truthy_false in Ht. by rewrite (get_text_empty_strip item Ht).
Qed.

Lemma option_items_without_data_options (c : node) :
  option_items (without_data_options c) = option_items c.
Proof. by destruct c. Qed.

Section ExtractorLemmas.

Variable json_loads : pystr -> json_result.

Lemma parse_question_with_container (soup card container : node) (o : pyval) :
  question_card_of soup = Some card →
  options_container_of card = Some container →
  parse_options json_loads container = Ok o →
  ∃ q, parse_question_from_html json_loads soup = Ok (Some q) ∧ options q = o.
Proof.
  unfold question_card_of, options_container_of. intros Hc Ho Hp.
  unfold parse_question_from_html. rewrite Hc, Ho, Hp. simpl.
  eexists. split; reflexivity.
Qed.

Lemma parse_question_raise (soup card container : node) (e : exn) :
  question_card_of soup = Some card →
  options_container_of card = Some container →
  parse_options json_loads container = Raise e →
  parse_question_from_html json_loads soup = Raise e.
Proof.
  unfold question_card_of, options_container_of. intros Hc Ho Hp.
  unfold parse_question_from_html. by rewrite Hc, Ho, Hp.
Qed.

Lemma parse_options_decoded (container : node) (d : pystr) (v : pyval) :
  get (py "data-options") container = Some d → d ≠ [] →
  json_loads (replace (py "&quot;") DQUOTE d) = Decoded v →
  parse_options json_loads container = add_missing (option_items container) v.
Proof.
  intros Hd Hne Hj. unfold parse_options. rewrite Hd.
  rewrite (proj2 (truthy_true d) Hne), Hj. reflexivity.
Qed.

(** What [json.loads] raises, other than [json.JSONDecodeError], leaves
    [parse_options]. *)
Lemma parse_options_decode_raised (container : node) (d : pystr) (e : exn) :
  get (py "data-options") container = Some d → d ≠ [] →
  json_loads (replace (py "&quot;") DQUOTE d) = DecodeRaised e →
  parse_options json_loads container = Raise e.
Proof.
  intros Hd Hne Hj. unfold parse_options. rewrite Hd.
  rewrite (proj2 (truthy_true d) Hne), Hj. reflexivity.
Qed.

(** Without the attribute, with an empty one or with one that [json.loads]
    rejects with [json.JSONDecodeError], the options are those of the
    rendered items. *)
Lemma parse_options_from_items (container : node) :
  match get (py "data-options") container with
  | Some d => d = [] ∨ json_loads (replace (py "&quot;") DQUOTE d) = JSONDecodeError
  | None => True
  end →
  parse_options json_loads container =
    Ok (PDict (items_into ∅ (option_items container))).
Proof.
  intros H. unfold parse_options. fold (option_items container).
  assert (∀ items, add_missing items (PDict (items_into ∅ items))
                   = Ok (PDict (items_into ∅ items))) as Hadd.
  { intros items. by rewrite add_missing_dict, merge_missing_items_into. }
  destruct (get (py "data-options") container) as [d|]; [|apply Hadd].
  destruct H as [->|H]; [apply Hadd|].
  destruct (truthy d); [|apply Hadd]. rewrite H. apply Hadd.
Qed.

End ExtractorLemmas.

(** ** Extractor: the claims *)



(** The text extracted from an option item is the item's stripped text
    (the text line 50, 58 or 66 slices) without its first three characters;
    when the stripped text still is a one-character label, a colon, a space
    and then the option text, which needs the space inside a text node, the
    extracted text is exactly the option text, and that is what the options
    hold under a label whose last rendered item it is when the options come
    from the rendered items. *)
Theorem item_text_of_rendered_format (item : node) (label : N) (text : pystr) :
  get_text_strip item = label :: py ": " ++ text →
  item_text item = drop 3 (get_text_strip item)
  ∧ item_text item = text
  ∧ (∀ json_loads soup card container,
       question_card_of soup = Some card →
       options_container_of card = Some container →
       get (py "data-options") container = None →
       last (filter (fun i => item_label i = item_label item) (option_items container))
         = Some item →
       ∃ q r, parse_question_from_html json_loads soup = Ok (Some q)
              ∧ options q = PDict r
              ∧ r !! item_label item = Some (PStr text)).
Proof.
  intros Hr. pose proof (item_text_drop item) as Hd.
  assert (item_text item = text) as Ht by (rewrite Hd, Hr; reflexivity).
  split; [exact Hd|]. split; [exact Ht|].
  intros json_loads soup card container Hcard Hcont Hnone Hlast.
  assert (parse_options json_loads container
          = Ok (PDict (items_into ∅ (option_items container)))) as Hp.
  { apply parse_options_from_items. by rewrite Hnone. }
  destruct (parse_question_with_container json_loads _ _ _ _ Hcard Hcont Hp)
    as (q & Hq & Ho).
  exists q, (items_into ∅ (option_items container)).
  split; [exact Hq|]. split; [exact Ho|].
  by rewrite items_into_lookup, Hlast, Ht.
Qed.

Lemma item_text_of_rendered_format_witness :
  get_text_strip (rendered_item (py "B") (py "second")) = py "B: second"
  ∧ item_text (rendered_item (py "B") (py "second")) = py "second"
  ∧ ∃ q r,
      parse_question_from_html Json.loads (sample_soup [container_rendered_A_B])
        = Ok (Some q)
      ∧ options q = PDict r
      ∧ r !! py "B" = Some (PStr (py "second")).
Proof.
  destruct (item_text_of_rendered_format
              (rendered_item (py "B") (py "second")) 66 (py "second"))
    as (_ & Ht & Hs); [reflexivity|].
  split; [reflexivity|]. split; [exact Ht|].
  apply (Hs Json.loads (sample_soup [container_rendered_A_B])
            (sample_card [container_rendered_A_B]) container_rendered_A_B);
    reflexivity.
Defined.

(** Text nodes are stripped one by one before they are joined, so a space
    that separates the label element from the text node after it is not part
    of the stripped text: for such an item the three characters dropped are
    the label, the colon and the first character of the text. *)
Lemma item_text_colon_in_label :
  let item := rendered_item_colon_in_label (py "A") (py "first") in
  item_label item = py "A"
  ∧ get_text item = py "A: first"
  ∧ get_text_strip item = py "A:first"
  ∧ item_text item = py "irst".
Proof. repeat split; by vm_compute. Qed.

(** C4. Evaluation of the extractor on the first option item of the page of
    the example of parser.py (lines 201-203), in a container without the
    encoded attribute: the item reads A, a colon, a space and the text, its
    label is A, and the text stored under A is the text without its first
    character, because the text sliced at lines 50, 58 and 66 has lost the
    space between the label element and the text. *)
Lemma example_item_text_lacks_first_character :
  strip (get_text example_item_A) = py "A: " ++ EXAMPLE_TEXT_A
  ∧ get_text_strip example_item_A = py "A:" ++ EXAMPLE_TEXT_A
  ∧ item_label example_item_A = py "A"
  ∧ item_text example_item_A = drop 1 EXAMPLE_TEXT_A
  ∧ item_text example_item_A ≠ EXAMPLE_TEXT_A
  ∧ parse_question_from_html Json.loads (sample_soup [container_example_item])
    = Ok (Some (mkQuestion (py "单选题") (py "1 + 1 = ?")
                  (PDict (<[py "A" := PStr (py "层扇出较少，中间层扇出较高，底层模块低扇入")]> ∅))
                  (py "unit 3") (py "A") (py "sums"))).
Proof.
  split; [by vm_compute|]. split; [by vm_compute|]. split; [by vm_compute|].
  split; [by vm_compute|]. split; [by vm_compute|]. by vm_compute.
Qed.

(** When [json.loads] raises [json.JSONDecodeError] on the encoded
    attribute, once its escaped quotes are unescaped, extraction raises
    nothing: it returns a record whose options are those read from the
    rendered items alone, the same as for the container without the
    attribute. *)
Theorem malformed_options_fallback (json_loads : pystr → json_result)
    (soup card container : node) (d : pystr) :
  question_card_of soup = Some card →
  options_container_of card = Some container →
  get (py "data-options") container = Some d → d ≠ [] →
  json_loads (replace (py "&quot;") DQUOTE d) = JSONDecodeError →
  ∃ q,
    parse_question_from_html json_loads soup = Ok (Some q)
    ∧ options q = PDict (items_into ∅ (option_items container))
    ∧ parse_options json_loads (without_data_options container) = Ok (options q).
Proof.
  intros Hcard Hcont Hd Hne Hj.
  assert (parse_options json_loads container
          = Ok (PDict (items_into ∅ (option_items container)))) as Hp.
  { apply parse_options_from_items. rewrite Hd. by right. }
  destruct (parse_question_with_container json_loads _ _ _ _ Hcard Hcont Hp)
    as (q & Hq & Ho).
  exists q. split; [exact Hq|]. split; [exact Ho|].
  rewrite Ho, <- option_items_without_data_options.
  apply parse_options_from_items.
  destruct container as [s|name classes attrs contents]; [done|].
  simpl. by rewrite lookup_delete_eq.
Qed.

Lemma malformed_options_fallback_witness :
  Json.loads (replace (py "&quot;") DQUOTE ENCODED_TRUNCATED) = JSONDecodeError
  ∧ ∃ q,
      parse_question_from_html Json.loads (sample_soup [container_malformed])
        = Ok (Some q)
      ∧ options q =
          PDict (<[py "B" := PStr (py "second")]> (<[py "A" := PStr (py "first")]> ∅)).
Proof.
  split; [by vm_compute|].
  destruct (malformed_options_fallback Json.loads (sample_soup [container_malformed])
              (sample_card [container_malformed]) container_malformed
              ENCODED_TRUNCATED)
    as (q & Hq & Ho & _);
    [reflexivity|reflexivity|reflexivity|discriminate|by vm_compute|].
  exists q. split; [exact Hq|]. rewrite Ho. reflexivity.
Defined.

(** Any other exception of [json.loads] on the unescaped attribute leaves
    the extractor. *)
Lemma extract_raises_what_decoding_raises (json_loads : pystr → json_result)
    (soup card container : node) (d : pystr) (e : exn) :
  question_card_of soup = Some card →
  options_container_of card = Some container →
  get (py "data-options") container = Some d → d ≠ [] →
  json_loads (replace (py "&quot;") DQUOTE d) = DecodeRaised e →
  parse_question_from_html json_loads soup = Raise e.
Proof.
  intros Hcard Hcont Hd Hne Hj.
  apply (parse_question_raise json_loads soup card container); [done..|].
  by apply (parse_options_decode_raised json_loads container d).
Qed.

(** C8. Evaluation of the extractor on a fragment whose encoded attribute is
    5000 digits followed by a letter, which is no JSON text, with valid
    rendered items for A and B: [json.loads] raises [ValueError] on the
    digits before it reaches the letter, line 44 catches
    [json.JSONDecodeError] only, and the extractor raises instead of
    returning the options of the rendered items, which it returns for the
    same container without the attribute. *)
Lemma malformed_options_extract_raises :
  question_card_of (sample_soup [container_long_integer])
    = Some (sample_card [container_long_integer])
  ∧ options_container_of (sample_card [container_long_integer])
    = Some container_long_integer
  ∧ get (py "data-options") container_long_integer = Some ENCODED_LONG_INTEGER
  ∧ Json.loads (replace (py "&quot;") DQUOTE ENCODED_LONG_INTEGER)
    = DecodeRaised ValueError
  ∧ parse_question_from_html Json.loads (sample_soup [container_long_integer])
    = Raise ValueError
  ∧ parse_options Json.loads (without_data_options container_long_integer)
    = Ok (PDict (<[py "B" := PStr (py "second")]> (<[py "A" := PStr (py "first")]> ∅))).
Proof.
  split; [reflexivity|]. split; [reflexivity|]. split; [reflexivity|].
  split; [by vm_compute|]. split; by vm_compute.
Qed.

(** C7. Evaluation of the extractor on a fragment that has the question-card
    wrapper and whose encoded attribute decodes to a number: the membership
    test of line 67 on that number raises [TypeError], so no record is
    returned although the wrapper is present. *)
Lemma wrapper_present_extract_raises :
  question_card_of (sample_soup [container_number])
    = Some (sample_card [container_number])
  ∧ Json.loads (replace (py "&quot;") DQUOTE (py "1")) = Decoded (PNum (py "1"))
  ∧ parse_question_from_html Json.loads (sample_soup [container_number])
    = Raise TypeError.
Proof. split; [reflexivity|]. split; by vm_compute. Qed.

(** What does hold of C7: without the wrapper the extractor returns [None];
    with it, it never returns [None], a record it returns has the default
    for every inner element that is missing, and without an options
    container a record is returned, with empty options. *)
Lemma extract_defaults (json_loads : pystr → json_result) (soup : node) :
  (question_card_of soup = None → parse_question_from_html json_loads soup = Ok None)
  ∧ (∀ card, question_card_of soup = Some card →
       parse_question_from_html json_loads soup ≠ Ok None
       ∧ (options_container_of card = None →
          ∃ q, parse_question_from_html json_loads soup = Ok (Some q)
               ∧ options q = PDict ∅)
       ∧ (∀ q, parse_question_from_html json_loads soup = Ok (Some q) →
            (find (py "span") (Some (py "question-type")) card = None → type q = [])
            ∧ (find (py "div") (Some (py "question-text")) card = None → question q = [])
            ∧ (options_container_of card = None → options q = PDict ∅)
            ∧ (find (py "div") (Some (py "question-meta")) card = None → source q = [])
            ∧ (find (py "div") (Some (py "correct-answer")) card = None →
               correct_answer q = [])
            ∧ (find (py "span") (Some (py "current-knowledge-point")) card = None →
               knowledge_point q = []))).
Proof.
  unfold question_card_of, options_container_of, parse_question_from_html.
  split; [by intros ->|]. intros card ->.
  destruct (find (py "div") (Some (py "optionsContainer")) card) as [c|] eqn:Hc.
  - destruct (parse_options json_loads c) as [o|e]; simpl.
    + split; [discriminate|]. split; [discriminate|].
      intros q [= <-]. simpl.
      repeat split; try discriminate; by intros ->.
    + split; [discriminate|]. split; discriminate.
  - simpl. split; [discriminate|]. split; [intros _; by eexists|].
    intros q [= <-]. simpl. repeat split; try done; by intros ->.
Qed.

(** The extractor returns a record whenever the wrapper is present and the
    encoded attribute is missing, empty, rejected by [json.loads] with
    [json.JSONDecodeError], or decoded to a mapping. *)
Lemma extract_returns_on_mappings (json_loads : pystr → json_result)
    (soup card : node) :
  question_card_of soup = Some card →
  (∀ container d,
     options_container_of card = Some container →
     get (py "data-options") container = Some d → d ≠ [] →
     json_loads (replace (py "&quot;") DQUOTE d) = JSONDecodeError
     ∨ ∃ m, json_loads (replace (py "&quot;") DQUOTE d) = Decoded (PDict m)) →
  ∃ q, parse_question_from_html json_loads soup = Ok (Some q) ∧ is_dict (options q).
Proof.
  intros Hcard Hdec.
  destruct (options_container_of card) as [container|] eqn:Hcont.
  - assert (∃ r, parse_options json_loads container = Ok (PDict r)) as [r Hp].
    { destruct (get (py "data-options") container) as [d|] eqn:Hd.
      - destruct (decide (d = [])) as [->|Hne].
        { eexists. apply parse_options_from_items. rewrite Hd. by left. }
        destruct (Hdec container d eq_refl Hd Hne) as [Hj|[m Hj]].
        + eexists. apply parse_options_from_items. rewrite Hd. by right.
        + eexists. rewrite (parse_options_decoded json_loads _ _ _ Hd Hne Hj).
          apply add_missing_dict.
      - eexists. apply parse_options_from_items. by rewrite Hd. }
    destruct (parse_question_with_container json_loads _ _ _ _ Hcard Hcont Hp)
      as (q & Hq & Ho).
    exists q. split; [exact Hq|]. by rewrite Ho.
  - destruct (extract_defaults json_loads soup) as [_ H].
    destruct (H card Hcard) as (_ & Hq & _).
    destruct (Hq Hcont) as (q & Hq' & Ho). exists q. split; [exact Hq'|].
    by rewrite Ho.
Qed.

(** It raises whenever the encoded attribute decodes to [None], a boolean or
    a number and some rendered item has a label. *)
Lemma extract_raises_on_scalar (json_loads : pystr → json_result)
    (soup card container : node) (d : pystr) (v : pyval) (item : node) :
  question_card_of soup = Some card →
  options_container_of card = Some container →
  get (py "data-options") container = Some d → d ≠ [] →
  json_loads (replace (py "&quot;") DQUOTE d) = Decoded v →
  py_contains LABEL_A v = Raise TypeError →
  item ∈ option_items container → item_label item ≠ [] →
  parse_question_from_html json_loads soup = Raise TypeError.
Proof.
  intros Hcard Hcont Hd Hne Hj Hv Hin Hl.
  apply (parse_question_raise json_loads soup card container); [done..|].
  rewrite (parse_options_decoded json_loads _ _ _ Hd Hne Hj).
  assert (∀ k, py_contains k v = Raise TypeError) as Hraise
    by (intros k; by destruct v).
  induction (option_items container) as [|i items IH];
    [by apply elem_of_nil in Hin|].
  cbn [add_missing]. cbv zeta.
  destruct (truthy (item_label i)) eqn:Hi.
  - by rewrite Hraise.
  - apply elem_of_cons in Hin as [->|Hin]; [|by apply IH].
    apply truthy_false in Hi. by rewrite Hi in Hl.
Qed.

(** * Properties of the page driver, the crawlers and the saved files *)

(** ** Strings: [replace] and [strip] with characters *)

Lemma contains_cons_false (old : pystr) (c : N) (s : pystr) :
  contains old (c :: s) = false →
  starts_with old (c :: s) = false ∧ contains old s = false.
Proof. cbn [contains]. by intros [? ?]%orb_false_elim. Qed.

Lemma replace_scan_absent (old new s : pystr) :
  contains old s = false → replace_scan old new O s = s.
Proof.
  induction s as [|c s IH]; [done|]. intros [Hs Hc]%contains_cons_false.
  cbn [replace_scan]. rewrite Hs. f_equal. by apply IH.
Qed.

Lemma replace_scan_length (old new : pystr) (k : nat) (s : pystr) :
  old ≠ [] → (length old ≤ length new)%nat →
  (length s ≤ k + length (replace_scan old new k s))%nat.
Proof.
  intros Hold Hlen. revert k. induction s as [|c s IH]; intros k; [simpl; lia|].
  cbn [replace_scan]. destruct k as [|k].
  - destruct (starts_with old (c :: s)).
    + rewrite length_app. specialize (IH (Nat.pred (length old))).
      destruct old; [done|]. simpl in *. lia.
    + specialize (IH O). simpl in *. lia.
  - specialize (IH k). simpl. lia.
Qed.

Lemma replace_scan_longer (old new s : pystr) :
  old ≠ [] → (length old < length new)%nat → contains old s = true →
  (length s < length (replace_scan old new O s))%nat.
Proof.
  intros Hold Hlen. induction s as [|c s IH].
  - by destruct old.
  - cbn [contains replace_scan]. intros Hc.
    destruct (starts_with old (c :: s)) eqn:Hs.
    + rewrite length_app.
      pose proof (replace_scan_length old new (Nat.pred (length old)) s Hold
                    ltac:(lia)) as H.
      destruct old; [done|]. simpl in *. lia.
    + simpl in Hc. specialize (IH Hc). simpl. lia.
Qed.

Lemma lstrip_by_head (p : N → bool) (s : pystr) (c : N) (r : pystr) :
  lstrip_by p s = c :: r → p c = false.
Proof.
  induction s as [|x s IH]; [done|]. simpl.
  destruct (p x) eqn:Hx; [exact IH|]. by intros [= <- _].
Qed.

Lemma rstrip_by_last (p : N → bool) (s : pystr) (c : N) (r : pystr) :
  rstrip_by p s = r ++ [c] → p c = false.
Proof.
  revert r. induction s as [|x s IH]; intros r; [by destruct r|].
  simpl. destruct (rstrip_by p s) as [|y t] eqn:Ht.
  - destruct (p x) eqn:Hx; [by destruct r|].
    destruct r as [|? [|? ?]]; intros [= <-]; done.
  - destruct r as [|z r]; [done|]. intros [= <- Hr]. by apply (IH r).
Qed.

(** What [rstrip_by] and [lstrip_by] cut off satisfies the predicate. *)
Lemma rstrip_by_split (p : N → bool) (s : pystr) :
  ∃ t, s = rstrip_by p s ++ t ∧ Forall (fun c => p c = true) t.
Proof.
  induction s as [|x s (t & Hs & Ht)]; [by exists []|].
  simpl. destruct (rstrip_by p s) as [|y u] eqn:Hu.
  - destruct (p x) eqn:Hx.
    + exists (x :: t). simpl in Hs. subst t. split; [done|by constructor].
    + exists t. simpl in *. by subst t.
  - exists t. split; [|done]. simpl. f_equal. exact Hs.
Qed.

Lemma lstrip_by_split (p : N → bool) (s : pystr) :
  ∃ t, s = t ++ lstrip_by p s ∧ Forall (fun c => p c = true) t.
Proof.
  induction s as [|x s (t & Hs & Ht)]; [by exists []|].
  simpl. destruct (p x) eqn:Hx.
  - exists (x :: t). simpl. rewrite <- Hs. split; [done|by constructor].
  - by exists [].
Qed.

Lemma rstrip_by_head (p : N → bool) (s : pystr) (c : N) (r : pystr) :
  rstrip_by p s = c :: r → ∃ s', s = c :: s'.
Proof.
  destruct s as [|x s]; [done|]. simpl.
  destruct (rstrip_by p s); [destruct (p x)|]; intros [= <- _]; by eexists.
Qed.

Lemma strip_by_clean (p : N → bool) (s : pystr) :
  Forall (fun c => p c = false) s → lstrip_by p s = s ∧ rstrip_by p s = s.
Proof.
  induction 1 as [|x s Hx _ [IHl IHr]]; [done|]. simpl. rewrite Hx, IHr.
  split; [done|]. by destruct s.
Qed.

(** ** Page driver *)

Section PageDriverProperties.

Variable json_loads : pystr -> json_result.
Variable BeautifulSoup : pystr -> node.
Variable str_node : node -> pystr.

#[local] Abbreviation extract_card card :=
  (parse_question_from_html_content json_loads BeautifulSoup (str_node card)).

Lemma parse_cards_outcomes (cards : list node) (outcomes : list (option Question))
    (questions : list Question) :
  Forall2 (fun card o => extract_card card = Ok o) cards outcomes →
  parse_cards json_loads BeautifulSoup str_node cards questions
    = Ok (questions ++ omap id outcomes).
Proof.
  intros H. revert questions.
  induction H as [|card o cards outcomes Hc _ IH]; intros questions.
  - simpl. by rewrite app_nil_r.
  - cbn [parse_cards]. cbv zeta. rewrite Hc. simpl.
    destruct o as [q|]; rewrite IH; simpl; [by rewrite <- app_assoc|done].
Qed.

Lemma parse_cards_raise (cards : list node) (card : node) (e : exn)
    (questions : list Question) :
  card ∈ cards → extract_card card = Raise e →
  ∃ e', parse_cards json_loads BeautifulSoup str_node cards questions = Raise e'.
Proof.
  intros Hin He. revert questions.
  induction cards as [|c cards IH]; intros questions; [by apply elem_of_nil in Hin|].
  cbn [parse_cards]. cbv zeta.
  destruct (extract_card c) as [o|e'] eqn:Hc; simpl; [|by eexists].
  apply elem_of_cons in Hin as [->|Hin]; [congruence|].
  destruct o; by apply IH.
Qed.

(** X1. When the extractor returns for every card of a page, the page
    driver returns the records of the cards in document order, leaving out
    the cards for which the extractor returned [None]: never more records
    than cards, and one per card when no card gives [None]. *)
Theorem parse_questions_from_page_records (html_content : pystr)
    (outcomes : list (option Question)) :
  Forall2 (fun card o => extract_card card = Ok o)
          (question_cards_of (BeautifulSoup html_content)) outcomes →
  ∃ questions,
    parse_questions_from_page json_loads BeautifulSoup str_node html_content
      = Ok questions
    ∧ questions = omap id outcomes
    ∧ (length questions ≤ length (question_cards_of (BeautifulSoup html_content)))%nat
    ∧ (Forall is_Some outcomes →
       Forall2 (fun card q => extract_card card = Ok (Some q))
               (question_cards_of (BeautifulSoup html_content)) questions).
Proof.
  intros H. exists (omap id outcomes).
  split; [exact (parse_cards_outcomes _ _ [] H)|].
  split; [done|]. split.
  - rewrite (Forall2_length _ _ _ H). clear H.
    induction outcomes as [|[q|] outcomes IH]; [done| |].
    + change (omap id (Some q :: outcomes)) with (q :: omap id outcomes).
      simpl. lia.
    + change (omap id (None :: outcomes)) with (omap id outcomes).
      simpl. lia.
  - intros Hsome. clear -H Hsome.
    induction H as [|card o cards outcomes Hc _ IH]; [constructor|].
    apply Forall_cons in Hsome as [[q ->] Hsome]. simpl.
    constructor; [done|by apply IH].
Qed.

(** X2. One card on which the extractor raises makes the page driver raise:
    the records of the other cards of the page are not returned. *)
Theorem parse_questions_from_page_raises (html_content : pystr) (card : node)
    (e : exn) :
  card ∈ question_cards_of (BeautifulSoup html_content) →
  extract_card card = Raise e →
  ∃ e', parse_questions_from_page json_loads BeautifulSoup str_node html_content
        = Raise e'.
Proof.
  intros Hin He. unfold parse_questions_from_page. cbv zeta.
  by apply (parse_cards_raise _ card e).
Qed.

End PageDriverProperties.

(** ** Normalizer: batches up to the order of the records *)

Lemma normalized_fmap (qs : list Question) :
  Forall convertible qs → normalized qs (normalized_or_same <$> qs).
Proof.
  induction 1 as [|q qs Hq _ IH]; [constructor|].
  rewrite fmap_cons. constructor; [|exact IH].
  unfold normalized_or_same.
  by destruct (normalize_convertible q Hq) as [q' ->].
Qed.

Lemma process_questions_ok (qs : list Question) :
  Forall convertible qs →
  process_questions qs =
    Ok (filter answered (normalized_or_same <$> qs),
        filter (fun q => ¬ answered q) (normalized_or_same <$> qs)).
Proof.
  intros Hqs. unfold process_questions.
  by rewrite (process_loop_normalized qs _ [] [] (normalized_fmap qs Hqs)).
Qed.

Lemma process_questions_ok_inv (qs a m : list Question) :
  process_questions qs = Ok (a, m) → Forall convertible qs.
Proof.
  intros Hp. destruct (decide (Forall convertible qs)) as [|Hn]; [done|].
  apply not_Forall_Exists in Hn; [|apply _].
  apply Exists_exists in Hn as (q & Hin & Hq).
  destruct (process_loop_raise qs q [] [] Hin Hq) as [e He].
  unfold process_questions in Hp. congruence.
Qed.

(** X3. The two lists [process_questions] returns depend on the order of
    the batch only through their own order: batches with the same records in
    another order give lists with the same records, and one of them is
    processed without exception exactly when the other is. *)
Theorem process_questions_permutation (qs1 qs2 a1 m1 : list Question) :
  qs1 ≡ₚ qs2 →
  process_questions qs1 = Ok (a1, m1) →
  ∃ a2 m2, process_questions qs2 = Ok (a2, m2) ∧ a1 ≡ₚ a2 ∧ m1 ≡ₚ m2.
Proof.
  intros Hperm Hp. pose proof (process_questions_ok_inv _ _ _ Hp) as H1.
  assert (Forall convertible qs2) as H2 by (by rewrite <- Hperm).
  rewrite (process_questions_ok qs1 H1) in Hp. injection Hp as <- <-.
  eexists _, _. split; [by apply process_questions_ok|].
  split; by rewrite Hperm.
Qed.

Lemma process_questions_permutation_witness :
  [sample_judgment (py "对"); sample_single_choice []]
    ≡ₚ [sample_single_choice []; sample_judgment (py "对")]
  ∧ ∃ a m,
      process_questions [sample_single_choice []; sample_judgment (py "对")]
        = Ok (a, m)
      ∧ [set_options (sample_judgment LABEL_A) (PDict (judgment_options ∅))] ≡ₚ a
      ∧ [sample_single_choice []] ≡ₚ m.
Proof.
  split; [apply perm_swap|].
  apply (process_questions_permutation
           [sample_judgment (py "对"); sample_single_choice []]).
  - apply perm_swap.
  - by vm_compute.
Defined.

(** ** Saved files: the rows *)

Lemma build_row_lookup (number stem a b c d e answer difficulty kind : cell) :
  let row := build_row number stem a b c d e answer difficulty kind in
  row !! py "题号" = Some number ∧ row !! py "题干" = Some stem
  ∧ row !! py "A" = Some a ∧ row !! py "B" = Some b ∧ row !! py "C" = Some c
  ∧ row !! py "D" = Some d ∧ row !! py "E" = Some e
  ∧ row !! py "答案" = Some answer ∧ row !! py "难度" = Some difficulty
  ∧ row !! py "题型" = Some kind.
Proof. repeat split; vm_compute; reflexivity. Qed.

Lemma make_row_dict (i : Z) (q : Question) (m : gmap (list N) pyval) :
  options q = PDict m → make_row i q = Returned (row_of i q m).
Proof. intros Hm. unfold make_row, option_cell. rewrite Hm. reflexivity. Qed.


Lemma write_rows_mapping (i : Z) (qs : list Question)
    (written : list (gmap (list N) cell)) :
  Forall has_mapping qs →
  ∃ rows,
    write_rows i qs written = (written ++ rows, None)
    ∧ length rows = length qs
    ∧ ∀ k q, qs !! k = Some q →
        ∃ m, options q = PDict m
             ∧ rows !! k = Some (row_of (i + Z.of_nat k) q m).
Proof.
  intros H. revert i written.
  induction H as [|q qs Hq _ IH]; intros i written.
  - exists []. simpl. rewrite app_nil_r. split; [done|]. split; [done|].
    intros k q Hk. by rewrite lookup_nil in Hk.
  - unfold has_mapping in Hq.
    destruct (options q) as [| | | | |m] eqn:Hm; try done.
    destruct (IH (i + 1)%Z (written ++ [row_of i q m])) as (rows & Hw & Hlen & Hrows).
    exists (row_of i q m :: rows). cbn [write_rows].
    rewrite (make_row_dict i q m Hm), Hw, <- app_assoc.
    split; [done|]. split; [simpl; by rewrite Hlen|].
    intros [|k] q' Hk; simpl in Hk.
    + injection Hk as <-. exists m. split; [done|]. simpl.
      by rewrite Z.add_0_r.
    + destruct (Hrows k q' Hk) as (m' & Hm' & Hr). exists m'. split; [done|].
      simpl. rewrite Hr. do 2 f_equal. lia.
Qed.


(** For records whose options are mappings, the code hands to the writer
    one row per record, in the order of the list, numbered from 1; a row
    holds the prompt, the texts of the options A to E (the empty string for
    a missing label), the answer without the double quotes around it, the
    knowledge point under the heading 难度 and the type. *)
Lemma rows_of_mapping (qs : list Question) :
  Forall has_mapping qs →
  write_rows 1 qs [] = (rows_of qs, None)
  ∧ length (rows_of qs) = length qs
  ∧ (∀ k q, qs !! k = Some q →
       ∃ m row,
         options q = PDict m ∧ rows_of qs !! k = Some row
         ∧ row !! py "题号" = Some (CellInt (1 + Z.of_nat k))
         ∧ row !! py "题干" = Some (text_cell (question q))
         ∧ (∀ label, label ∈ COLUMN_LABELS →
              row !! label = Some (CellValue (default (PStr []) (m !! label))))
         ∧ row !! py "答案"
           = Some (text_cell (strip_chars DQUOTE (correct_answer q)))
         ∧ row !! py "难度" = Some (text_cell (knowledge_point q))
         ∧ row !! py "题型" = Some (text_cell (type q))).
Proof.
  intros H. destruct (write_rows_mapping 1 qs [] H) as (rows & Hw & Hlen & Hrows).
  unfold rows_of. rewrite Hw. simpl.
  split; [done|]. split; [done|].
  intros k q Hk. destruct (Hrows k q Hk) as (m & Hm & Hr).
  exists m, (row_of (1 + Z.of_nat k) q m). split; [done|]. split; [done|].
  destruct (build_row_lookup (CellInt (1 + Z.of_nat k)) (text_cell (question q))
              (option_column m (py "A")) (option_column m (py "B"))
              (option_column m (py "C")) (option_column m (py "D"))
              (option_column m (py "E"))
              (text_cell (strip_chars DQUOTE (correct_answer q)))
              (text_cell (knowledge_point q)) (text_cell (type q)))
    as (H0 & H1 & HA & HB & HC & HD & HE & H7 & H8 & H9).
  split; [exact H0|]. split; [exact H1|]. split; [|by repeat split].
  intros label Hl. unfold COLUMN_LABELS in Hl. rewrite !elem_of_cons in Hl.
  destruct Hl as [->|[->|[->|[->|[->|Hl]]]]];
    [exact HA|exact HB|exact HC|exact HD|exact HE|by apply elem_of_nil in Hl].
Qed.

(** ** Saved files: the file layer *)

Lemma write_rows_acc (i : Z) (qs : list Question)
    (written : list (gmap (list N) cell)) :
  write_rows i qs written
    = (written ++ (write_rows i qs []).1, (write_rows i qs []).2).
Proof.
  revert i written. induction qs as [|q qs IH]; intros i written.
  - simpl. by rewrite app_nil_r.
  - cbn [write_rows]. destruct (make_row i q) as [row|e].
    + rewrite (IH _ (written ++ [row])), (IH _ ([] ++ [row])). simpl.
      by rewrite <- app_assoc.
    + simpl. by rewrite app_nil_r.
Qed.

Lemma rows_before_unencodable_all (rows : list (gmap (list N) cell)) :
  forallb row_encodable rows = true → rows_before_unencodable rows = rows.
Proof.
  induction rows as [|row rows IH]; [done|]. simpl.
  destruct (row_encodable row); [|done]. simpl. intros H. by rewrite IH.
Qed.

(** The write stops at the first row the file cannot encode. *)
Lemma write_rows_io_mapping (i : Z) (qs : list Question)
    (written : list (gmap (list N) cell)) :
  Forall has_mapping qs →
  write_rows_io i qs written
    = (written ++ rows_before_unencodable (write_rows i qs []).1,
       if forallb row_encodable (write_rows i qs []).1
       then None else Some UnicodeEncodeError).
Proof.
  intros H. revert i written.
  induction H as [|q qs Hq _ IH]; intros i written.
  - simpl. by rewrite app_nil_r.
  - unfold has_mapping in Hq.
    destruct (options q) as [| | | | |m] eqn:Hm; try done.
    cbn [write_rows_io write_rows]. rewrite (make_row_dict i q m Hm).
    rewrite (write_rows_acc _ qs ([] ++ [row_of i q m])). simpl.
    destruct (row_encodable (row_of i q m)); simpl.
    + rewrite IH. by rewrite <- app_assoc.
    + by rewrite app_nil_r.
Qed.

Lemma save_questions_io_mapping (open_error : pystr → option py_exception)
    (qs : list Question) (output_file : pystr) (fs : gmap (list N) file_content) :
  Forall has_mapping qs → open_error output_file = None →
  save_questions_to_csv_io open_error qs output_file fs
    = (<[output_file := CsvFile (rows_before_unencodable (rows_of qs))]> fs,
       if forallb row_encodable (rows_of qs) then None else Some UnicodeEncodeError).
Proof.
  intros H Ho. unfold save_questions_to_csv_io. rewrite Ho.
  by rewrite (write_rows_io_mapping 1 qs [] H).
Qed.

(** X4. [save_questions_to_csv] on records whose options are mappings.
    When [open] raises, the exception leaves the function and no file
    changes. When the file opens, it is replaced by the rows of the records
    up to the first row that holds a text the file cannot encode (a
    surrogate on its own), and [UnicodeEncodeError] is raised if there is
    such a row; if there is none, nothing is raised and the file holds one
    row per record, in the order of the list, numbered from 1. A row holds
    the prompt, the texts of the options A to E (the empty string for a
    missing label), the answer without the double quotes around it, the
    knowledge point under the heading 难度 and the type. No other file
    changes. *)
Theorem save_questions_numbered_rows (open_error : pystr → option py_exception)
    (qs : list Question) (output_file : pystr) (fs : gmap (list N) file_content) :
  Forall has_mapping qs →
  (∀ e, open_error output_file = Some e →
     save_questions_to_csv_io open_error qs output_file fs = (fs, Some e))
  ∧ (open_error output_file = None →
     save_questions_to_csv_io open_error qs output_file fs
       = (<[output_file := CsvFile (rows_before_unencodable (rows_of qs))]> fs,
          if forallb row_encodable (rows_of qs)
          then None else Some UnicodeEncodeError))
  ∧ (forallb row_encodable (rows_of qs) = true →
     rows_before_unencodable (rows_of qs) = rows_of qs)
  ∧ length (rows_of qs) = length qs
  ∧ (∀ k q, qs !! k = Some q →
       ∃ m row,
         options q = PDict m ∧ rows_of qs !! k = Some row
         ∧ row !! py "题号" = Some (CellInt (1 + Z.of_nat k))
         ∧ row !! py "题干" = Some (text_cell (question q))
         ∧ (∀ label, label ∈ COLUMN_LABELS →
              row !! label = Some (CellValue (default (PStr []) (m !! label))))
         ∧ row !! py "答案"
           = Some (text_cell (strip_chars DQUOTE (correct_answer q)))
         ∧ row !! py "难度" = Some (text_cell (knowledge_point q))
         ∧ row !! py "题型" = Some (text_cell (type q)))
  ∧ (∀ other, other ≠ output_file →
       (save_questions_to_csv_io open_error qs output_file fs).1 !! other
       = fs !! other).
Proof.
  intros H. destruct (rows_of_mapping qs H) as (_ & Hlen & Hrows).
  split; [intros e He; unfold save_questions_to_csv_io; by rewrite He|].
  split; [by apply save_questions_io_mapping|].
  split; [apply rows_before_unencodable_all|].
  split; [exact Hlen|]. split; [exact Hrows|].
  intros other Hne. destruct (open_error output_file) as [e|] eqn:He.
  - unfold save_questions_to_csv_io. by rewrite He.
  - rewrite (save_questions_io_mapping open_error qs output_file fs H He). simpl.
    by rewrite lookup_insert_ne.
Qed.

Lemma save_questions_numbered_rows_witness :
  Forall has_mapping [sample_single_choice (py "A"); sample_judgment (py "B")]
  ∧ save_questions_to_csv_io sample_open_error
      [sample_single_choice (py "A"); sample_judgment (py "B")] (py "out.csv") ∅
    = (<[py "out.csv" :=
           CsvFile (rows_of [sample_single_choice (py "A"); sample_judgment (py "B")])]> ∅,
       None)
  ∧ length (rows_of [sample_single_choice (py "A"); sample_judgment (py "B")]) = 2%nat
  ∧ save_questions_to_csv_io sample_open_error
      [sample_single_choice (py "A"); sample_judgment (py "B")] [] ∅
    = (∅, Some OSError)
  ∧ save_questions_to_csv_io sample_open_error
      [sample_single_choice (py "A"); sample_lone_surrogate; sample_judgment (py "B")]
      (py "out.csv") ∅
    = (<[py "out.csv" := CsvFile (rows_of [sample_single_choice (py "A")])]> ∅,
       Some UnicodeEncodeError).
Proof.
  assert (Forall has_mapping
            [sample_single_choice (py "A"); sample_judgment (py "B")]) as H
    by (repeat constructor).
  split; [exact H|].
  destruct (save_questions_numbered_rows sample_open_error _ (py "out.csv") ∅ H)
    as (_ & Hs & Hall & Hlen & _).
  split; [rewrite (Hs eq_refl), Hall; by vm_compute|].
  split; [exact Hlen|].
  destruct (save_questions_numbered_rows sample_open_error _ [] ∅ H)
    as (Ho & _).
  split; [by apply Ho|].
  assert (Forall has_mapping
            [sample_single_choice (py "A"); sample_lone_surrogate;
             sample_judgment (py "B")]) as H'
    by (repeat constructor).
  destruct (save_questions_numbered_rows sample_open_error _ (py "out.csv") ∅ H')
    as (_ & Hs' & _).
  rewrite (Hs' eq_refl). by vm_compute.
Defined.


(** X6. The row of a record depends on its options through the labels A to
    E only: two mappings that agree on these five labels give the same row,
    so an option under any other label never reaches the file. *)
Theorem make_row_ignores_other_labels (i : Z) (q : Question)
    (m1 m2 : gmap (list N) pyval) :
  (∀ label, label ∈ COLUMN_LABELS → m1 !! label = m2 !! label) →
  make_row i (set_options q (PDict m1)) = make_row i (set_options q (PDict m2)).
Proof.
  intros H.
  rewrite (make_row_dict i (set_options q (PDict m1)) m1 eq_refl),
    (make_row_dict i (set_options q (PDict m2)) m2 eq_refl).
  f_equal. unfold row_of, option_column. simpl.
  rewrite !H by (unfold COLUMN_LABELS; rewrite !elem_of_cons; tauto).
  reflexivity.
Qed.

Lemma make_row_ignores_other_labels_witness :
  make_row 1
    (set_options (sample_single_choice (py "A"))
                 (PDict (<[py "F" := PStr (py "sixth")]> ∅)))
  = make_row 1 (set_options (sample_single_choice (py "A")) (PDict ∅)).
Proof.
  apply (make_row_ignores_other_labels 1 (sample_single_choice (py "A"))).
  intros label Hl. unfold COLUMN_LABELS in Hl. rewrite !elem_of_cons in Hl.
  destruct Hl as [->|[->|[->|[->|[->|Hl]]]]];
    [reflexivity..|by apply elem_of_nil in Hl].
Defined.

(** X7. The answer written to the file is the answer of the record with the
    double quotes at its two ends taken away: what is removed before and
    after it consists of double quotes only, and what is left neither starts
    nor ends with a double quote. *)
Theorem answer_column_unquoted (s : pystr) :
  ∃ before after,
    s = before ++ strip_chars DQUOTE s ++ after
    ∧ Forall (fun c => c = 34) before
    ∧ Forall (fun c => c = 34) after
    ∧ head (strip_chars DQUOTE s) ≠ Some 34
    ∧ last (strip_chars DQUOTE s) ≠ Some 34.
Proof.
  unfold strip_chars. set (p := fun c : N => bool_decide (c ∈ DQUOTE)).
  assert (∀ c, p c = true → c = 34) as Hp.
  { intros c Hc. apply bool_decide_eq_true in Hc.
    by apply list_elem_of_singleton in Hc. }
  assert (p 34 = true) as H34 by reflexivity.
  destruct (lstrip_by_split p s) as (before & Hs & Hb).
  destruct (rstrip_by_split p (lstrip_by p s)) as (after & Hl & Ha).
  exists before, after. split; [by rewrite <- Hl|].
  split; [eapply Forall_impl; [exact Hb|exact Hp]|].
  split; [eapply Forall_impl; [exact Ha|exact Hp]|].
  split.
  - destruct (rstrip_by p (lstrip_by p s)) as [|c r] eqn:Hr; [done|].
    intros [= ->]. apply rstrip_by_head in Hr as [s' Hs'].
    apply lstrip_by_head in Hs'. congruence.
  - destruct (rstrip_by p (lstrip_by p s)) as [|c r] eqn:Hr using rev_ind; [done|].
    rewrite last_snoc. intros [= ->].
    apply rstrip_by_last in Hr. congruence.
Qed.

Lemma contains_absent_char (c : N) (s : pystr) :
  c ∉ s → contains [c] s = false.
Proof.
  induction s as [|x s IH]; [done|]. intros [Hx Hs]%not_elem_of_cons.
  cbn [contains starts_with]. rewrite (IH Hs), orb_false_r, andb_true_r.
  by apply N.eqb_neq.
Qed.

Lemma quotes_only_strings (n : nat) :
  let a := replicate (S n) 34 in
  strip a = a ∧ strip_chars DQUOTE a = [] ∧ remapped_answer a = a.
Proof.
  cbv zeta.
  assert (Forall (fun c => is_space c = false) (replicate (S n) 34)) as Hsp
    by (apply Forall_replicate; reflexivity).
  assert (strip (replicate (S n) 34) = replicate (S n) 34) as Hstrip.
  { unfold strip. destruct (strip_by_clean is_space _ Hsp) as [Hl Hr].
    by rewrite Hl, Hr. }
  split; [exact Hstrip|]. split.
  - unfold strip_chars.
    assert (lstrip_by (fun c => bool_decide (c ∈ DQUOTE)) (replicate (S n) 34) = [])
      as -> ; [|done].
    clear. induction (S n) as [|k IH]; [done|]. simpl. exact IH.
  - unfold remapped_answer. cbv zeta. rewrite Hstrip.
    assert (∀ l : list pystr, Forall (fun t => head t ≠ Some 34) l →
              in_list (replicate (S n) 34) l = false) as Hnot.
    { intros l Hl. apply bool_decide_eq_false. intros Hin.
      rewrite Forall_forall in Hl. by apply (Hl _ Hin). }
    rewrite !Hnot by (repeat constructor; discriminate).
    unfold LABEL_A, LABEL_B. rewrite !contains_absent_char; [done| |];
      intros [? ?]%elem_of_replicate; discriminate.
Qed.

(** X8. A record that is not a multi-select record and whose answer consists
    of double quotes only counts as answered: [process_questions] puts it in
    its first list, and the answer written to the file for it is empty. *)
Theorem quotes_only_answer_is_answered (q : Question) (n : nat) :
  convertible q → type q ≠ MULTI_SELECT →
  correct_answer q = replicate (S n) 34 →
  ∃ q', process_questions [q] = Ok ([q'], [])
        ∧ correct_answer q' = correct_answer q
        ∧ strip_chars DQUOTE (correct_answer q') = [].
Proof.
  intros Hq Ht Ha. destruct (quotes_only_strings n) as (Hstrip & Hquote & Hremap).
  cbv zeta in *.
  assert (∃ q', normalize_record q = Ok q' ∧ correct_answer q' = correct_answer q)
    as (q' & Hn & Hq').
  { destruct (decide (type q = JUDGMENT)) as [Hj|Hj].
    - specialize (Hq Hj). destruct (options q) as [| | | | |m] eqn:Hm; try done.
      eexists. split; [by apply normalize_judgment|]. simpl. by rewrite Ha, Hremap.
    - exists q. split; [by apply normalize_other|done]. }
  exists q'. split; [|split; [done|by rewrite Hq', Ha]].
  unfold process_questions. cbn [process_loop]. rewrite Hn. simpl.
  unfold answer_is_empty. by rewrite Hq', Ha, Hstrip.
Qed.

(** X9. The file of the records without an answer has the name of the main
    file exactly when that name does not contain .csv; when it does, the two
    names differ. *)
Theorem empty_answers_file_same_iff (output_file : pystr) :
  empty_answers_file output_file = output_file
  ↔ contains (py ".csv") output_file = false.
Proof.
  unfold empty_answers_file. split.
  - intros Heq. destruct (contains (py ".csv") output_file) eqn:Hc; [|done].
    exfalso.
    pose proof (replace_scan_longer (py ".csv") (py "_empty_answers.csv")
                  output_file ltac:(discriminate) ltac:(vm_compute; lia) Hc) as Hlen.
    change (replace (py ".csv") (py "_empty_answers.csv") output_file)
      with (replace_scan (py ".csv") (py "_empty_answers.csv") O output_file) in Heq.
    rewrite Heq in Hlen. lia.
  - intros Hc. by apply (replace_scan_absent (py ".csv")).
Qed.

(** ** Requests *)

Lemma add_question_types_list (question_types : list pystr)
    (params : gmap (list N) param) (l : list pystr) :
  params !! py "questionTypes" = Some (ParamList l) →
  add_question_types question_types params
    = Returned (<[py "questionTypes" := ParamList (l ++ question_types)]> params).
Proof.
  revert params l. induction question_types as [|t rest IH]; intros params l Hl.
  - simpl. by rewrite app_nil_r, insert_id.
  - cbn [add_question_types]. unfold add_question_type. rewrite Hl. simpl.
    rewrite (IH _ (l ++ [t])) by apply lookup_insert_eq.
    by rewrite insert_insert_eq, <- app_assoc.
Qed.

Lemma add_question_types_fresh (question_types : list pystr)
    (params : gmap (list N) param) :
  params !! py "questionTypes" = None →
  add_question_types question_types params
    = Returned (match question_types with
                | [] => params
                | _ :: _ => <[py "questionTypes" := ParamList question_types]> params
                end).
Proof.
  intros Hnone. destruct question_types as [|t rest]; [done|].
  cbn [add_question_types]. unfold add_question_type. rewrite Hnone. simpl.
  rewrite (add_question_types_list rest _ [t]) by apply lookup_insert_eq.
  by rewrite insert_insert_eq.
Qed.

(** X10. Building the parameters of a request never raises. The dict has
    the page, the size and the course; it has the question types, as one
    list in the order given, exactly when there is at least one, and it has
    no other key. *)
Theorem request_params_keys (page size : Z) (course : pystr)
    (question_types : list pystr) :
  ∃ params,
    request_params page size course question_types = Returned params
    ∧ params !! py "page" = Some (ParamInt page)
    ∧ params !! py "size" = Some (ParamInt size)
    ∧ params !! py "course" = Some (ParamStr course)
    ∧ params !! py "questionTypes"
      = match question_types with
        | [] => None
        | _ :: _ => Some (ParamList question_types)
        end
    ∧ ∀ k, k ∉ PARAM_KEYS → params !! k = None.
Proof.
  unfold request_params.
  set (base := <[py "course" := ParamStr course]>
                 (<[py "size" := ParamInt size]> (<[py "page" := ParamInt page]> ∅))).
  assert (base !! py "questionTypes" = None) as Hnone by reflexivity.
  assert (base !! py "page" = Some (ParamInt page)) as Hp by reflexivity.
  assert (base !! py "size" = Some (ParamInt size)) as Hs by reflexivity.
  assert (base !! py "course" = Some (ParamStr course)) as Hc by reflexivity.
  assert (∀ k, k ∉ PARAM_KEYS → base !! k = None) as Hother.
  { intros k Hk. unfold PARAM_KEYS in Hk. rewrite !not_elem_of_cons in Hk.
    destruct Hk as (H1 & H2 & H3 & _). unfold base.
    rewrite !lookup_insert_ne; [done|by intros <-; apply H1
                                |by intros <-; apply H2|by intros <-; apply H3]. }
  eexists. split; [by apply add_question_types_fresh|].
  destruct question_types as [|t rest]; [by repeat split|].
  rewrite !(lookup_insert_ne _ (py "questionTypes")) by discriminate.
  rewrite lookup_insert_eq. repeat split; try done.
  intros k Hk. rewrite lookup_insert_ne; [by apply Hother|].
  intros <-. apply Hk. unfold PARAM_KEYS. rewrite !elem_of_cons. tauto.
Qed.

Lemma request_params_returned (page size : Z) (course : pystr)
    (question_types : list pystr) :
  request_params page size course question_types
    = Returned (params_of page size course question_types).
Proof. unfold request_params. by rewrite add_question_types_fresh. Qed.

(** ** The crawler of crawler.py *)

Section CrawlerProperties.

Variable json_loads : pystr -> json_result.
Variable BeautifulSoup : pystr -> node.
Variable str_node : node -> pystr.
Variable session_get : pystr -> gmap (list N) param -> http_result.

#[local] Abbreviation page_questions :=
  (parse_questions_from_page json_loads BeautifulSoup str_node).
#[local] Abbreviation fetch :=
  (get_questions json_loads BeautifulSoup str_node session_get).
#[local] Abbreviation gather :=
  (collect json_loads BeautifulSoup str_node session_get).
#[local] Abbreviation crawl :=
  (crawl_and_save_questions json_loads BeautifulSoup str_node session_get).

Lemma request_questions_response (page size : Z) (course : pystr)
    (question_types : list pystr) :
  request_questions json_loads BeautifulSoup str_node session_get
                    page size course question_types
  = match session_get REQUEST_URL (params_of page size course question_types) with
    | HttpRaised => Raised RequestError
    | HttpResponse status_code text =>
        if (status_code =? 200)%Z then lift (page_questions text) else Returned []
    end.
Proof. unfold request_questions. by rewrite request_params_returned. Qed.

(** X11. [get_questions] of crawler.py never raises and always gives back
    the number of its page. It returns the records of the page when the
    status is 200 and the page driver returns them; it returns no record
    when the request raises, when the status is not 200, and when the
    extractor raises on one card of the page, whatever the other cards
    hold. *)
Theorem get_questions_cases (pd : page_data) :
  (session_get REQUEST_URL (page_params pd) = HttpRaised →
   fetch pd = ([], pd_page pd))
  ∧ (∀ status_code text,
       session_get REQUEST_URL (page_params pd) = HttpResponse status_code text →
       (status_code ≠ 200%Z → fetch pd = ([], pd_page pd))
       ∧ (status_code = 200%Z → ∀ questions,
            page_questions text = Ok questions →
            fetch pd = (questions, pd_page pd))
       ∧ (status_code = 200%Z → ∀ card e,
            card ∈ question_cards_of (BeautifulSoup text) →
            parse_question_from_html_content json_loads BeautifulSoup (str_node card)
              = Raise e →
            fetch pd = ([], pd_page pd))).
Proof.
  unfold get_questions, page_params. rewrite request_questions_response.
  split; [by intros ->|]. intros status_code text ->. split; [|split].
  - intros Hs. apply Z.eqb_neq in Hs. by rewrite Hs.
  - intros -> questions Hq. simpl. by rewrite Hq.
  - intros -> card e Hin He. simpl.
    destruct (parse_cards_raise json_loads BeautifulSoup str_node _ card e []
                Hin He) as [e' He'].
    unfold parse_questions_from_page. cbv zeta.
    unfold question_cards_of in He'. by rewrite He'.
Qed.

Lemma collect_bind (completion_order : list page_data) :
  gather completion_order = completion_order ≫= (fun pd => (fetch pd).1).
Proof.
  unfold collect.
  assert (∀ acc, foldl (fun all_questions pd =>
                          let '(questions, _) := fetch pd in
                          if bool_decide (questions ≠ [])
                          then all_questions ++ questions else all_questions)
                       acc completion_order
                 = acc ++ (completion_order ≫= (fun pd => (fetch pd).1))) as H.
  { induction completion_order as [|pd l IH]; intros acc.
    - simpl. by rewrite app_nil_r.
    - cbn [foldl]. rewrite IH, bind_cons.
      destruct (fetch pd) as [questions page_num]. simpl.
      case_bool_decide as Hq; [by rewrite <- app_assoc|].
      by rewrite Hq. }
  exact (H []).
Qed.

(** X12. The records gathered from the finished requests are the records of
    the pages, page after page in the order in which the requests finish:
    two orders give the same records up to their order. *)
Theorem collect_completion_order (order1 order2 : list page_data) :
  order1 ≡ₚ order2 →
  gather order1 = order1 ≫= (fun pd => (fetch pd).1)
  ∧ gather order1 ≡ₚ gather order2.
Proof.
  intros Hperm. split; [apply collect_bind|].
  rewrite !collect_bind. by rewrite Hperm.
Qed.

End CrawlerProperties.

(** ** The files of a run *)

Lemma has_mapping_convertible (q : Question) : has_mapping q → convertible q.
Proof. by intros H _. Qed.

Lemma has_mapping_normalized (q : Question) :
  has_mapping q → has_mapping (normalized_or_same q).
Proof.
  unfold has_mapping, normalized_or_same. intros H.
  destruct (decide (type q = JUDGMENT)) as [Ht|Ht].
  - destruct (options q) as [| | | | |m] eqn:Hm; try done.
    by rewrite (normalize_judgment q m Ht Hm).
  - destruct (decide (type q = MULTI_SELECT)) as [Hs|Hs].
    + by rewrite (normalize_multi_select q Hs).
    + by rewrite (normalize_other q Ht Hs).
Qed.

Lemma has_mapping_partitions (qs : list Question) :
  Forall has_mapping qs →
  Forall has_mapping (answered_records qs)
  ∧ Forall has_mapping (unanswered_records qs).
Proof.
  intros H. assert (Forall has_mapping (normalized_or_same <$> qs)) as Hn.
  { apply Forall_fmap. eapply Forall_impl; [exact H|].
    intros q. apply has_mapping_normalized. }
  split; apply Forall_forall; intros q [_ Hq]%list_elem_of_filter;
    by apply (proj1 (Forall_forall _ _) Hn).
Qed.


Lemma empty_answers_file_differs (output_file : pystr) :
  contains (py ".csv") output_file = true →
  empty_answers_file output_file ≠ output_file.
Proof.
  intros Hc Heq.
  pose proof (replace_scan_longer (py ".csv") (py "_empty_answers.csv")
                output_file ltac:(discriminate) ltac:(vm_compute; lia) Hc) as Hlen.
  unfold empty_answers_file in Heq.
  change (replace (py ".csv") (py "_empty_answers.csv") output_file)
    with (replace_scan (py ".csv") (py "_empty_answers.csv") O output_file) in Heq.
  rewrite Heq in Hlen. lia.
Qed.

Section RunProperties.

Variable json_loads : pystr -> json_result.
Variable BeautifulSoup : pystr -> node.
Variable str_node : node -> pystr.
Variable session_get : pystr -> gmap (list N) param -> http_result.

#[local] Abbreviation gather :=
  (collect json_loads BeautifulSoup str_node session_get).
#[local] Abbreviation crawl :=
  (crawl_and_save_questions json_loads BeautifulSoup str_node session_get).

Variable open_error : pystr -> option py_exception.

#[local] Abbreviation crawl_io :=
  (crawl_and_save_questions_io json_loads BeautifulSoup str_node session_get
                               open_error).


Lemma crawl_io_mapping (order : list page_data) (output_file : pystr)
    (fs : gmap (list N) file_content) :
  order ≠ [] → Forall has_mapping (gather order) →
  crawl_io order output_file fs =
    let '(fs1, raised) :=
      save_questions_to_csv_io open_error (answered_records (gather order))
                               output_file fs in
    match raised with
    | Some e => (fs1, Some e)
    | None =>
        match unanswered_records (gather order) with
        | [] => (fs1, None)
        | _ :: _ =>
            save_questions_to_csv_io open_error (unanswered_records (gather order))
                                     (empty_answers_file output_file) fs1
        end
    end.
Proof.
  intros Hne H. unfold crawl_and_save_questions_io.
  destruct order as [|pd order']; [done|]. cbv zeta.
  rewrite process_questions_ok
    by (eapply Forall_impl; [exact H|apply has_mapping_convertible]).
  reflexivity.
Qed.

(** X13. A run of [crawl_and_save_questions] whose gathered records all
    have a mapping as options. Without a page to request the thread pool
    raises [ValueError] and no file changes. Otherwise, when [open] raises
    on the main file, the exception leaves the run and no file changes.
    When the files open and every row can be encoded, the run raises
    nothing: if every record is answered it writes the main file only, with
    the rows of the answered records; if not, and the name of the main file
    contains .csv, it writes two different files, the main file with the
    rows of the answered records and the second file with the rows of the
    others, each numbered from 1, and no other file changes. *)
Theorem crawl_writes_partitions (order : list page_data) (output_file : pystr)
    (fs : gmap (list N) file_content) :
  Forall has_mapping (gather order) →
  (order = [] → crawl_io order output_file fs = (fs, Some (Builtin ValueError)))
  ∧ (∀ e, order ≠ [] → open_error output_file = Some e →
       crawl_io order output_file fs = (fs, Some e))
  ∧ (order ≠ [] → open_error output_file = None →
     forallb row_encodable (rows_of (answered_records (gather order))) = true →
     (unanswered_records (gather order) = [] →
      crawl_io order output_file fs
        = (<[output_file := CsvFile (rows_of (answered_records (gather order)))]> fs,
           None))
     ∧ (unanswered_records (gather order) ≠ [] →
        open_error (empty_answers_file output_file) = None →
        forallb row_encodable (rows_of (unanswered_records (gather order))) = true →
        contains (py ".csv") output_file = true →
        ∃ fs', crawl_io order output_file fs = (fs', None)
          ∧ empty_answers_file output_file ≠ output_file
          ∧ fs' !! output_file
            = Some (CsvFile (rows_of (answered_records (gather order))))
          ∧ fs' !! empty_answers_file output_file
            = Some (CsvFile (rows_of (unanswered_records (gather order))))
          ∧ ∀ other, other ≠ output_file → other ≠ empty_answers_file output_file →
              fs' !! other = fs !! other)).
Proof.
  intros H. destruct (has_mapping_partitions _ H) as [Ha Hu].
  split; [by intros ->|]. split.
  { intros e Hne He. rewrite (crawl_io_mapping order output_file fs Hne H).
    unfold save_questions_to_csv_io. by rewrite He. }
  intros Hne Ho Henc. rewrite (crawl_io_mapping order output_file fs Hne H).
  rewrite (save_questions_io_mapping open_error _ output_file fs Ha Ho).
  rewrite Henc, (rows_before_unencodable_all _ Henc). split.
  - by intros ->.
  - intros Hne' Ho' Henc' Hc. pose proof (empty_answers_file_differs _ Hc) as Hd.
    rewrite (save_questions_io_mapping open_error _ _ _ Hu Ho').
    rewrite Henc', (rows_before_unencodable_all _ Henc').
    destruct (unanswered_records (gather order)) as [|q l] eqn:Hl; [done|].
    eexists. split; [reflexivity|]. split; [done|].
    split; [by rewrite lookup_insert_ne, lookup_insert_eq|].
    split; [by rewrite lookup_insert_eq|].
    intros other H1 H2. by rewrite !lookup_insert_ne.
Qed.


(** X15. One gathered judgment record whose options are not a mapping makes
    the run raise [TypeError] before any file is opened: no record of any
    page is saved. *)
Theorem crawl_saves_nothing_on_type_error (order : list page_data)
    (output_file : pystr) (fs : gmap (list N) file_content) (q : Question) :
  q ∈ gather order → type q = JUDGMENT → ¬ has_mapping q →
  crawl order output_file fs = (fs, Some (Builtin TypeError)).
Proof.
  intros Hin Ht Hq. unfold crawl_and_save_questions. cbv zeta.
  assert (¬ convertible q) as Hc by (intros Hc; by apply Hq, Hc).
  destruct (process_loop_raise (gather order) q [] [] Hin Hc) as [e He].
  unfold process_questions. rewrite He.
  by rewrite (process_loop_raises_type_error _ _ _ _ He).
Qed.

End RunProperties.

(** ** The crawler of parser.py *)

Section ParserCrawlerProperties.

Variable json_loads : pystr -> json_result.
Variable BeautifulSoup : pystr -> node.
Variable str_node : node -> pystr.
Variable session_get : pystr -> gmap (list N) param -> http_result.

#[local] Abbreviation page_of page :=
  (parser_get_questions json_loads BeautifulSoup str_node session_get
                        page 15%Z None COURSE).
#[local] Abbreviation crawl_pages :=
  (parser_crawl_pages json_loads BeautifulSoup str_node session_get).
#[local] Abbreviation crawl :=
  (parser_crawl_and_save_questions json_loads BeautifulSoup str_node session_get).

(** Pages that all give questions are all requested. *)
Lemma parser_crawl_pages_full (pages : list Z) (results : list (list Question))
    (all_questions : list Question) (requested : list Z) (rest : list Z) :
  Forall2 (fun page qs => page_of page = Returned qs ∧ qs ≠ []) pages results →
  crawl_pages (pages ++ rest) all_questions requested
    = crawl_pages rest (all_questions ++ concat results) (requested ++ pages).
Proof.
  intros H. revert all_questions requested.
  induction H as [|page qs pages results [Hp Hne] _ IH]; intros all_questions requested.
  - simpl. by rewrite !app_nil_r.
  - cbn [app parser_crawl_pages]. rewrite Hp.
    rewrite bool_decide_eq_false_2 by done.
    rewrite IH. simpl. by rewrite <- !app_assoc.
Qed.



(** X17. When a request or the extractor raises on a page, the crawler of
    parser.py stops with that exception and writes no file: the records of
    the pages fetched before are not saved. *)
Theorem parser_crawl_saves_nothing_on_exception (output_file : pystr)
    (max_pages : Z) (fs : gmap (list N) file_content)
    (before : list Z) (page : Z) (after : list Z)
    (results : list (list Question)) (e : py_exception) :
  seqZ 1 max_pages = before ++ page :: after →
  Forall2 (fun page qs => page_of page = Returned qs ∧ qs ≠ []) before results →
  page_of page = Raised e →
  crawl output_file max_pages fs = (fs, Some e, before ++ [page]).
Proof.
  intros Hpages Hbefore Hpage. unfold parser_crawl_and_save_questions.
  rewrite Hpages, (parser_crawl_pages_full before results [] [] _ Hbefore).
  cbn [parser_crawl_pages]. by rewrite Hpage.
Qed.

End ParserCrawlerProperties.

(** ** Extractor: rendered items and decoded values *)

Lemma strip_nonempty (s : pystr) : strip s ≠ [] → s ≠ [].
Proof. by intros H ->. Qed.

(** X18. For an option item rendered as in the example page of parser.py,
    with the label and a colon in the label element and the text in the
    next text node, the label is read correctly but the text extracted is
    the stripped text without its first character: the three characters
    dropped are the label, the colon and the first character of the text,
    because the white space between the two nodes is stripped before the
    texts are joined. *)
Theorem page_item_text_loses_first_character (pre lab txt : pystr) (c : N) :
  strip pre = [] → strip lab = [c; 58] → c ≠ 58 →
  item_label (page_item pre lab txt) = [c]
  ∧ get_text_strip (page_item pre lab txt) = c :: 58 :: strip txt
  ∧ item_text (page_item pre lab txt) = drop 1 (strip txt).
Proof.
  intros Hpre Hlab Hc.
  assert (get_text_strip (page_item pre lab txt) = c :: 58 :: strip txt) as Hg.
  { unfold get_text_strip, page_item. cbn [all_strings flat_map app map].
    rewrite Hpre, Hlab. simpl. destruct (strip txt); simpl; [done|].
    by rewrite app_nil_r. }
  split; [|split; [exact Hg|]].
  - unfold item_label.
    assert (find (py "span") (Some (py "option-label")) (page_item pre lab txt)
            = Some (Tag (py "span") [py "option-label"] ∅ [NavigableString lab]))
      as -> by reflexivity.
    unfold get_text_strip. cbn [all_strings flat_map app map]. rewrite Hlab.
    cbn [List.filter truthy concat app]. unfold rstrip.
    change (py ":") with [58]. cbn [rstrip_by].
    rewrite (bool_decide_eq_true_2 (58 ∈ [58])) by (by left).
    rewrite (bool_decide_eq_false_2 (c ∈ [58])); [done|].
    intros Hin. apply list_elem_of_singleton in Hin. done.
  - unfold item_text.
    assert (get_text (page_item pre lab txt) ≠ []) as Hne.
    { unfold get_text, page_item. cbn [all_strings flat_map app concat].
      intros Happ. apply app_eq_nil in Happ as [_ Happ].
      apply app_eq_nil in Happ as [Hl _]. rewrite Hl in Hlab. discriminate Hlab. }
    rewrite (proj2 (truthy_true _) Hne), Hg. reflexivity.
Qed.

Lemma add_missing_no_label (items : list node) (v : pyval) :
  Forall (fun item => item_label item = []) items → add_missing items v = Ok v.
Proof.
  induction 1 as [|item items Hl _ IH]; [done|].
  cbn [add_missing]. cbv zeta. by rewrite Hl.
Qed.

(** X19. When the encoded attribute decodes and no rendered item has a
    label, the options of the record are the decoded value as it is, also
    when it is not a mapping: a list, a string, a number, a boolean or
    [None] then stands where the options should be. *)
Theorem options_are_the_decoded_value (json_loads : pystr → json_result)
    (soup card container : node) (d : pystr) (v : pyval) :
  question_card_of soup = Some card →
  options_container_of card = Some container →
  get (py "data-options") container = Some d → d ≠ [] →
  json_loads (replace (py "&quot;") DQUOTE d) = Decoded v →
  Forall (fun item => item_label item = []) (option_items container) →
  ∃ q, parse_question_from_html json_loads soup = Ok (Some q) ∧ options q = v.
Proof.
  intros Hcard Hcont Hd Hne Hj Hitems.
  apply (parse_question_with_container json_loads soup card container);
    [done..|].
  rewrite (parse_options_decoded json_loads _ _ _ Hd Hne Hj).
  by apply add_missing_no_label.
Qed.

(** ** Instances on the sample pages *)

Lemma parse_questions_from_page_records_witness :
  ∃ questions,
    parse_questions_from_page Json.loads sample_BeautifulSoup sample_str_node
                              (py "page") = Ok questions
    ∧ questions = sample_page_records
    ∧ length questions = 3%nat.
Proof.
  destruct (parse_questions_from_page_records Json.loads sample_BeautifulSoup
              sample_str_node (py "page") (Some <$> sample_page_records))
    as (questions & Hp & Hq & _).
  - repeat constructor; vm_compute; reflexivity.
  - exists questions. split; [exact Hp|]. rewrite Hq. split; reflexivity.
Defined.

Lemma parse_questions_from_page_raises_witness :
  card_q3 ∈ question_cards_of (sample_BeautifulSoup (py "bad"))
  ∧ ∃ e', parse_questions_from_page Json.loads sample_BeautifulSoup sample_str_node
            (py "bad") = Raise e'.
Proof.
  assert (card_q3 ∈ question_cards_of (sample_BeautifulSoup (py "bad"))) as Hin
    by (right; left).
  split; [exact Hin|].
  apply (parse_questions_from_page_raises Json.loads sample_BeautifulSoup
           sample_str_node (py "bad") card_q3 TypeError Hin).
  by vm_compute.
Defined.


Lemma quotes_only_answer_is_answered_witness :
  ∃ q', process_questions [sample_single_choice [34; 34]] = Ok ([q'], [])
        ∧ correct_answer q' = [34; 34]
        ∧ strip_chars DQUOTE (correct_answer q') = [].
Proof.
  apply (quotes_only_answer_is_answered (sample_single_choice [34; 34]) 1).
  - intros Ht. discriminate Ht.
  - discriminate.
  - reflexivity.
Defined.

Lemma empty_answers_file_same_iff_witness :
  contains (py ".csv") (py "questions") = false
  ∧ empty_answers_file (py "questions") = py "questions".
Proof.
  split; [reflexivity|].
  apply (proj2 (empty_answers_file_same_iff (py "questions"))). reflexivity.
Defined.

Lemma get_questions_cases_witness :
  get_questions Json.loads sample_BeautifulSoup sample_str_node
                (sample_session_get sample_table) (sample_pd 3) = ([], 3%Z)
  ∧ get_questions Json.loads sample_BeautifulSoup sample_str_node
                  (sample_session_get sample_table) (sample_pd 2) = ([], 2%Z)
  ∧ get_questions Json.loads sample_BeautifulSoup sample_str_node
                  (sample_session_get sample_table) (sample_pd 1)
    = (sample_page_records, 1%Z)
  ∧ get_questions Json.loads sample_BeautifulSoup sample_str_node
                  (sample_session_get sample_table) (sample_pd 4) = ([], 4%Z).
Proof.
  split; [|split; [|split]].
  - apply (get_questions_cases Json.loads sample_BeautifulSoup sample_str_node
             (sample_session_get sample_table) (sample_pd 3)). reflexivity.
  - destruct (get_questions_cases Json.loads sample_BeautifulSoup sample_str_node
                (sample_session_get sample_table) (sample_pd 2)) as [_ H].
    destruct (H 404%Z [] eq_refl) as (H404 & _). apply H404. discriminate.
  - destruct (get_questions_cases Json.loads sample_BeautifulSoup sample_str_node
                (sample_session_get sample_table) (sample_pd 1)) as [_ H].
    destruct (H 200%Z (py "page") eq_refl) as (_ & H200 & _).
    apply H200; [reflexivity|by vm_compute].
  - destruct (get_questions_cases Json.loads sample_BeautifulSoup sample_str_node
                (sample_session_get sample_table) (sample_pd 4)) as [_ H].
    destruct (H 200%Z (py "bad") eq_refl) as (_ & _ & Hbad).
    apply (Hbad eq_refl card_q3 TypeError); [right; left|by vm_compute].
Defined.

Lemma collect_completion_order_witness :
  [sample_pd 1; sample_pd 2] ≡ₚ [sample_pd 2; sample_pd 1]
  ∧ collect Json.loads sample_BeautifulSoup sample_str_node
            (sample_session_get sample_table) [sample_pd 1; sample_pd 2]
    ≡ₚ collect Json.loads sample_BeautifulSoup sample_str_node
               (sample_session_get sample_table) [sample_pd 2; sample_pd 1].
Proof.
  split; [apply perm_swap|].
  apply (collect_completion_order Json.loads sample_BeautifulSoup sample_str_node
           (sample_session_get sample_table)). apply perm_swap.
Defined.

Lemma crawl_writes_partitions_witness :
  ∃ fs',
    crawl_and_save_questions_io Json.loads sample_BeautifulSoup sample_str_node
      (sample_session_get sample_table) sample_open_error
      [sample_pd 2; sample_pd 1] (py "out.csv") ∅
      = (fs', None)
    ∧ (∃ rows, fs' !! py "out.csv" = Some (CsvFile rows) ∧ length rows = 2%nat)
    ∧ (∃ rows, fs' !! py "out_empty_answers.csv" = Some (CsvFile rows)
               ∧ length rows = 1%nat).
Proof.
  destruct (crawl_writes_partitions Json.loads sample_BeautifulSoup sample_str_node
              (sample_session_get sample_table) sample_open_error
              [sample_pd 2; sample_pd 1] (py "out.csv") ∅) as (_ & _ & H).
  - vm_compute. repeat constructor.
  - destruct H as [_ H]; [discriminate|reflexivity|by vm_compute|].
    destruct H as (fs' & Hc & _ & Hmain & Hsecond & _);
      [by vm_compute|reflexivity|by vm_compute|reflexivity|].
    exists fs'. split; [exact Hc|]. split.
    + eexists. split; [exact Hmain|]. by vm_compute.
    + eexists. split; [exact Hsecond|]. by vm_compute.
Defined.


Lemma crawl_saves_nothing_on_type_error_witness :
  crawl_and_save_questions Json.loads sample_BeautifulSoup sample_str_node
    (sample_session_get sample_table) [sample_pd 1; sample_pd 5] (py "out.csv") ∅
  = (∅, Some (Builtin TypeError)).
Proof.
  apply (crawl_saves_nothing_on_type_error Json.loads sample_BeautifulSoup
           sample_str_node (sample_session_get sample_table)
           [sample_pd 1; sample_pd 5] (py "out.csv") ∅
           (mkQuestion JUDGMENT [] (PList []) [] [] [])).
  - vm_compute. do 3 right. left.
  - reflexivity.
  - intros H. exact H.
Defined.


Lemma parser_crawl_saves_nothing_on_exception_witness :
  parser_crawl_and_save_questions Json.loads sample_BeautifulSoup sample_str_node
    (sample_session_get raising_table) (py "questions.json") 5 ∅
  = (∅, Some RequestError, [1%Z; 2%Z]).
Proof.
  apply (parser_crawl_saves_nothing_on_exception Json.loads sample_BeautifulSoup
           sample_str_node (sample_session_get raising_table)
           (py "questions.json") 5 ∅ [1%Z] 2%Z [3%Z; 4%Z; 5%Z]
           [sample_page_records]).
  - reflexivity.
  - constructor; [split; [by vm_compute|discriminate]|constructor].
  - by vm_compute.
Defined.

Lemma page_item_text_loses_first_character_witness :
  item_label (page_item (py "  ") (py "A:") (py " first ")) = py "A"
  ∧ get_text_strip (page_item (py "  ") (py "A:") (py " first ")) = py "A:first"
  ∧ item_text (page_item (py "  ") (py "A:") (py " first ")) = py "irst".
Proof.
  apply (page_item_text_loses_first_character (py "  ") (py "A:") (py " first ") 65);
    [reflexivity|reflexivity|discriminate].
Defined.

Lemma options_are_the_decoded_value_witness :
  ∃ q, parse_question_from_html Json.loads (document [card_q5]) = Ok (Some q)
       ∧ options q = PList [].
Proof.
  apply (options_are_the_decoded_value Json.loads (document [card_q5]) card_q5
           (sample_container (<[py "data-options" := py "[]"]> ∅) []) (py "[]"));
    [reflexivity|reflexivity|reflexivity|discriminate|by vm_compute|constructor].
Defined.

(** ** Extractor, normalizer and file together *)

(** X20. The extractor returns a record, with a mapping as options,
    whenever the wrapper is present and the encoded attribute is missing,
    empty, rejected by [json.loads] with [json.JSONDecodeError], or decoded
    to a mapping. *)
Theorem extract_returns_a_mapping (json_loads : pystr → json_result)
    (soup card : node) :
  question_card_of soup = Some card →
  (∀ container d,
     options_container_of card = Some container →
     get (py "data-options") container = Some d → d ≠ [] →
     json_loads (replace (py "&quot;") DQUOTE d) = JSONDecodeError
     ∨ ∃ m, json_loads (replace (py "&quot;") DQUOTE d) = Decoded (PDict m)) →
  ∃ q, parse_question_from_html json_loads soup = Ok (Some q) ∧ is_dict (options q).
Proof. apply extract_returns_on_mappings. Qed.

Lemma extract_returns_a_mapping_witness :
  ∃ q, parse_question_from_html Json.loads (sample_soup [container_malformed])
         = Ok (Some q)
       ∧ is_dict (options q).
Proof.
  apply (extract_returns_a_mapping Json.loads (sample_soup [container_malformed])
           (sample_card [container_malformed])); [reflexivity|].
  intros container d Hc Hd Hne.
  assert (container = container_malformed) as -> by (by injection Hc as <-).
  assert (d = ENCODED_TRUNCATED) as -> by (by injection Hd as <-).
  left. by vm_compute.
Defined.

(** X21. When the encoded attribute decodes to [None], a boolean or a
    number and some rendered item has a label, the extractor raises
    [TypeError] on the card. *)
Theorem extract_raises_on_non_container (json_loads : pystr → json_result)
    (soup card container : node) (d : pystr) (v : pyval) (item : node) :
  question_card_of soup = Some card →
  options_container_of card = Some container →
  get (py "data-options") container = Some d → d ≠ [] →
  json_loads (replace (py "&quot;") DQUOTE d) = Decoded v →
  v = PNone ∨ (∃ b, v = PBool b) ∨ (∃ literal, v = PNum literal) →
  item ∈ option_items container → item_label item ≠ [] →
  parse_question_from_html json_loads soup = Raise TypeError.
Proof.
  intros Hcard Hcont Hd Hne Hj Hv Hin Hl.
  apply (extract_raises_on_scalar json_loads soup card container d v item);
    try done.
  by destruct Hv as [->|[[b ->]|[l ->]]].
Qed.

Lemma extract_raises_on_non_container_witness :
  parse_question_from_html Json.loads (sample_soup [container_number])
  = Raise TypeError.
Proof.
  apply (extract_raises_on_non_container Json.loads (sample_soup [container_number])
           (sample_card [container_number]) container_number (py "1")
           (PNum (py "1")) (rendered_item (py "A") (py "first")));
    [reflexivity|reflexivity|reflexivity|discriminate|by vm_compute
    |right; right; by eexists|left|discriminate].
Defined.

(** X22. The row saved for a normalized judgment record shows 正确 under A
    and 错误 under B, whatever options the page gave for A and B; its answer
    is A or B, without quotes, whenever the trimmed answer of the page is in
    one of the two lists or contains "A" or "B". *)
Theorem judgment_row (i : Z) (q : Question) (m : gmap (list N) pyval) :
  type q = JUDGMENT → options q = PDict m →
  ∃ q' row,
    normalize_record q = Ok q'
    ∧ make_row i q' = Returned row
    ∧ row !! py "A" = Some (text_cell TRUE_TEXT)
    ∧ row !! py "B" = Some (text_cell FALSE_TEXT)
    ∧ (∀ label, label ∈ [py "C"; py "D"; py "E"] →
         row !! label = Some (CellValue (default (PStr []) (m !! label))))
    ∧ (recognized (strip (correct_answer q)) →
       row !! py "答案" = Some (text_cell LABEL_A)
       ∨ row !! py "答案" = Some (text_cell LABEL_B)).
Proof.
  intros Ht Hm.
  destruct (judgment_answer_rule q m Ht Hm) as (q' & Hq' & Ho & HA & HB & _).
  fold (judgment_options m) in Ho.
  exists q', (row_of i q' (judgment_options m)).
  split; [exact Hq'|]. split; [by apply make_row_dict|].
  destruct (build_row_lookup (CellInt i) (text_cell (question q'))
              (option_column (judgment_options m) (py "A"))
              (option_column (judgment_options m) (py "B"))
              (option_column (judgment_options m) (py "C"))
              (option_column (judgment_options m) (py "D"))
              (option_column (judgment_options m) (py "E"))
              (text_cell (strip_chars DQUOTE (correct_answer q')))
              (text_cell (knowledge_point q')) (text_cell (type q')))
    as (_ & _ & RA & RB & RC & RD & RE & Rans & _).
  assert (∀ label, label ≠ LABEL_A → label ≠ LABEL_B →
            option_column (judgment_options m) label
            = CellValue (default (PStr []) (m !! label))) as Hother.
  { intros label H1 H2. unfold option_column, judgment_options.
    by rewrite !lookup_insert_ne. }
  unfold row_of. split.
  { rewrite RA. unfold option_column, judgment_options.
    by rewrite lookup_insert_ne, lookup_insert_eq. }
  split.
  { rewrite RB. unfold option_column, judgment_options.
    by rewrite lookup_insert_eq. }
  split.
  - intros label Hl. rewrite !elem_of_cons in Hl.
    destruct Hl as [->|[->|[->|Hl]]]; [| | |by apply elem_of_nil in Hl].
    + rewrite RC. f_equal. by apply Hother.
    + rewrite RD. f_equal. by apply Hother.
    + rewrite RE. f_equal. by apply Hother.
  - intros Hrec. rewrite Rans. unfold recognized in Hrec.
    destruct (decide (strip (correct_answer q) ∈ TRUE_ANSWERS
                      ∨ contains LABEL_A (strip (correct_answer q)) = true)) as [H|H].
    + left. by rewrite (HA H).
    + right. rewrite HB; [done|done|tauto].
Qed.

Lemma judgment_row_witness :
  ∃ q' row,
    normalize_record (sample_judgment ([34] ++ py "B" ++ [34])) = Ok q'
    ∧ make_row 1 q' = Returned row
    ∧ row !! py "A" = Some (text_cell TRUE_TEXT)
    ∧ row !! py "B" = Some (text_cell FALSE_TEXT)
    ∧ row !! py "答案" = Some (text_cell LABEL_B).
Proof.
  destruct (judgment_row 1 (sample_judgment ([34] ++ py "B" ++ [34])) ∅)
    as (q' & row & Hn & Hr & HA & HB & _ & Hans); [reflexivity|reflexivity|].
  exists q', row. split; [exact Hn|]. split; [exact Hr|].
  split; [exact HA|]. split; [exact HB|].
  destruct Hans as [H|H]; [do 3 right; reflexivity| |exact H].
  exfalso. clear -Hn H Hr.
  vm_compute in Hn. injection Hn as <-. vm_compute in Hr. injection Hr as <-.
  vm_compute in H. discriminate H.
Defined.

(** X23. The answer saved for a normalized multi-select record is the
    answer of the page without its square brackets, spaces, quotes and
    commas: removing the double quotes at the two ends changes nothing any
    more, so the letters of the answer reach the file one after the other. *)
Theorem multi_select_row_answer (i : Z) (q : Question) (m : gmap (list N) pyval) :
  type q = MULTI_SELECT → options q = PDict m →
  ∃ q' row,
    normalize_record q = Ok q'
    ∧ make_row i q' = Returned row
    ∧ row !! py "答案"
      = Some (text_cell (filter (fun c => c ∉ ANSWER_PUNCTUATION) (correct_answer q)))
    ∧ Forall (fun c => c ∉ ANSWER_PUNCTUATION)
             (filter (fun c => c ∉ ANSWER_PUNCTUATION) (correct_answer q)).
Proof.
  intros Ht Hm.
  set (a := filter (fun c => c ∉ ANSWER_PUNCTUATION) (correct_answer q)).
  assert (Forall (fun c => c ∉ ANSWER_PUNCTUATION) a) as Ha.
  { apply Forall_forall. by intros c [Hc _]%list_elem_of_filter. }
  exists (set_correct_answer q a), (row_of i (set_correct_answer q a) m).
  split; [by rewrite (normalize_multi_select q Ht), strip_answer_punctuation_filter|].
  split; [by apply make_row_dict|]. split; [|exact Ha].
  destruct (build_row_lookup (CellInt i) (text_cell (question (set_correct_answer q a)))
              (option_column m (py "A")) (option_column m (py "B"))
              (option_column m (py "C")) (option_column m (py "D"))
              (option_column m (py "E"))
              (text_cell (strip_chars DQUOTE (correct_answer (set_correct_answer q a))))
              (text_cell (knowledge_point (set_correct_answer q a)))
              (text_cell (type (set_correct_answer q a))))
    as (_ & _ & _ & _ & _ & _ & _ & Rans & _).
  unfold row_of. rewrite Rans. simpl. do 2 f_equal.
  assert (Forall (fun c => bool_decide (c ∈ DQUOTE) = false) a) as Hq.
  { eapply Forall_impl; [exact Ha|]. intros c Hc. apply bool_decide_eq_false.
    intros Hin. apply Hc. apply list_elem_of_singleton in Hin as ->.
    unfold ANSWER_PUNCTUATION. rewrite !elem_of_cons. tauto. }
  unfold strip_chars.
  destruct (strip_by_clean (fun c => bool_decide (c ∈ DQUOTE)) a Hq) as [Hl Hr].
  by rewrite Hl, Hr.
Qed.

Lemma multi_select_row_answer_witness :
  ∃ q' row,
    normalize_record (sample_multi_select ANSWER_LIST_ABC) = Ok q'
    ∧ make_row 1 q' = Returned row
    ∧ row !! py "答案" = Some (text_cell (py "ABC")).
Proof.
  destruct (multi_select_row_answer 1 (sample_multi_select ANSWER_LIST_ABC)
              (<[LABEL_A := PStr (py "2")]> ∅))
    as (q' & row & Hn & Hr & Hans & _); [reflexivity|reflexivity|].
  exists q', row. split; [exact Hn|]. split; [exact Hr|]. exact Hans.
Defined.
